(** * homebridge-smart-diffuser-lbslm: a shallow embedding in Rocq

    The development models the plugin's cloud client:
    - [accessory.js] (the [DiffuserAccessory] class): [_callApi] with its
      one-shot session refresh and retry, [setRotationSpeed],
      [getRotationSpeed], [updateTimerIntensity], [setLock], [pollStatus],
      [setOn], [getOn], [getOilLevel], the filter indication, [resetFilter]
      and the state the constructor sets up;
    - [auth.js] ([AuthClient]): [login] and its form body, [fetchDevices],
      the cookie extractors and [getCredentials];
    - [platform.js] ([DiffuserPlatform]): [refreshSession], the
      deduplicated session refresh, [_executeRefresh], the
      [didFinishLaunching] handler, [autoDiscover], [discoverDevices],
      [configureAccessory] and [addAccessory].

    JavaScript values are modelled by [jsval]; numbers are exact rationals
    (the claims are about the arithmetic of [Math.round], [Math.min] and
    [Math.max], not about binary64 rounding).  The network, the clock, the
    platform's refresh and the HomeKit characteristics are part of an
    explicit world threaded through a small state/exception monad. *)

From Stdlib Require Import ZArith QArith Qround Qminmax String Ascii List Bool Lia.
Import ListNotations.

Set Warnings "-register-all".
Local Open Scope string_scope.
Local Open Scope Z_scope.

(** ** JavaScript values *)

Inductive jsval : Type :=
| JUndef
| JNull
| JBool (b : bool)
| JNum (q : Q)
| JNaN
| JStr (s : string)
| JArr (xs : list jsval)
| JObj (fields : list (string * jsval)).

(** Truthiness, as used by [if (x)], [!x] and [x || y]. *)
Definition js_truthy (v : jsval) : bool :=
  match v with
  | JUndef | JNull | JNaN => false
  | JBool b => b
  | JNum q => negb (Qeq_bool q 0)
  | JStr s => negb (String.eqb s EmptyString)
  | JArr _ | JObj _ => true
  end.

(** [a || b] *)
Definition js_or (a b : jsval) : jsval := if js_truthy a then a else b.

(** [v === JStr s] *)
Definition js_is_str (v : jsval) (s : string) : bool :=
  match v with JStr s' => String.eqb s' s | _ => false end.

(** [v === true] *)
Definition js_is_true (v : jsval) : bool :=
  match v with JBool true => true | _ => false end.

(** [a === b]; two objects or arrays built separately are never equal. *)
Definition js_strict_eq (a b : jsval) : bool :=
  match a, b with
  | JUndef, JUndef | JNull, JNull => true
  | JBool x, JBool y => Bool.eqb x y
  | JNum x, JNum y => Qeq_bool x y
  | JStr x, JStr y => String.eqb x y
  | _, _ => false
  end.

(** The message of the TypeError thrown by [v.k] on [null]/[undefined]. *)
Definition type_error_msg (v : jsval) (k : string) : string :=
  ("Cannot read properties of " ++
  (match v with JNull => "null" | _ => "undefined" end) ++
  " (reading '" ++ k ++ "')")%string.

Fixpoint assoc_get {A} (k : string) (l : list (string * A)) : option A :=
  match l with
  | [] => None
  | (k', a) :: l' => if String.eqb k k' then Some a else assoc_get k l'
  end.

(** A canonical array index ("0", "1", ..., no leading zeros). *)
Fixpoint digits_value (s : string) (acc : nat) : option nat :=
  match s with
  | EmptyString => Some acc
  | String c s' =>
      let n := nat_of_ascii c in
      if (48 <=? n)%nat && (n <=? 57)%nat
      then digits_value s' (acc * 10 + (n - 48))%nat
      else None
  end.

Definition array_index (k : string) : option nat :=
  match k with
  | EmptyString => None
  | String "0" EmptyString => Some 0%nat
  | String "0" _ => None
  | _ => digits_value k 0
  end.

(** Property access [v[k]]; [None] is the TypeError raised on [null] and
    [undefined]. *)
Definition js_get (v : jsval) (k : string) : option jsval :=
  match v with
  | JUndef | JNull => None
  | JObj fs => Some (match assoc_get k fs with Some a => a | None => JUndef end)
  | JArr xs =>
      if String.eqb k "length" then Some (JNum (inject_Z (Z.of_nat (length xs))))
      else match array_index k with
           | Some n => Some (nth n xs JUndef)
           | None => Some JUndef
           end
  | JStr s =>
      if String.eqb k "length" then Some (JNum (inject_Z (Z.of_nat (String.length s))))
      else match array_index k with
           | Some n => Some (match String.get n s with
                             | Some c => JStr (String c EmptyString)
                             | None => JUndef
                             end)
           | None => Some JUndef
           end
  | _ => Some JUndef
  end.

(** [v[k]] where the access cannot throw (undefined otherwise). *)
Definition prop (v : jsval) (k : string) : jsval :=
  match js_get v k with Some x => x | None => JUndef end.

(** *** Number to string *)

Definition digit_char (d : Z) : ascii := ascii_of_nat (48 + Z.to_nat d).

(** Decimal digits of a non-negative integer; [fuel] bounds the number of
    digits. *)
Fixpoint nat_digits (fuel : nat) (z : Z) (acc : string) : string :=
  match fuel with
  | O => acc
  | S f =>
      let acc' := String (digit_char (z mod 10)) acc in
      if z <? 10 then acc' else nat_digits f (z / 10) acc'
  end.

Definition Z_to_dec (z : Z) : string :=
  let a := Z.abs z in
  let ds := nat_digits (S (Z.to_nat (Z.log2 a))) a EmptyString in
  if z <? 0 then String "-" ds else ds.

(** Smallest [k <= fuel] with [den | num * 10^k]. *)
Fixpoint decimal_places (fuel : nat) (k : nat) (num den : Z) : option nat :=
  if (num * 10 ^ Z.of_nat k) mod den =? 0 then Some k
  else match fuel with
       | O => None
       | S f => decimal_places f (S k) num den
       end.

Fixpoint pad_left (n : nat) (s : string) : string :=
  match n with
  | O => s
  | S n' => if (String.length s <? n)%nat then pad_left n' (String "0" s) else s
  end.

(** [String(q)] for a finite number.  Every number the program prints is a
    JSON decimal, an integer or [Date.now() / 1000], all with a finite
    decimal expansion; exponent notation (beyond 1e21) is not modelled. *)
Definition Q_to_dec (q : Q) : string :=
  let r := Qred q in
  let n := Qnum r in
  let d := Zpos (Qden r) in
  if d =? 1 then Z_to_dec n
  else match decimal_places 40 0 n d with
       | Some k =>
           let scaled := Z.abs n * 10 ^ Z.of_nat k / d in
           let ip := scaled / 10 ^ Z.of_nat k in
           let fp := scaled mod 10 ^ Z.of_nat k in
           String.append (if n <? 0 then "-"%string else EmptyString)
             (String.append (Z_to_dec ip)
                (String.append "." (pad_left k (Z_to_dec fp))))
       | None => Z_to_dec (Qfloor q)
       end.

Fixpoint concat_sep (sep : string) (l : list string) : string :=
  match l with
  | [] => EmptyString
  | [x] => x
  | x :: l' => (x ++ sep ++ concat_sep sep l')%string
  end.

(** [String(v)], as used by template literals and [URLSearchParams]. *)
Fixpoint js_to_string (v : jsval) : string :=
  match v with
  | JUndef => "undefined"
  | JNull => "null"
  | JBool true => "true"
  | JBool false => "false"
  | JNum q => Q_to_dec q
  | JNaN => "NaN"
  | JStr s => s
  | JArr xs =>
      concat_sep ","
        (map (fun x => match x with JUndef | JNull => EmptyString
                                  | _ => js_to_string x end) xs)
  | JObj _ => "[object Object]"
  end%string.

(** *** Numbers *)

(** [Number(s)] for a string: the empty string is 0 and a string of
    decimal digits is its value; other numeric-string forms (sign, decimal
    point, exponent, surrounding white space) are read as NaN here, and no
    statement below depends on them. *)
Definition str_to_number (s : string) : option Q :=
  match s with
  | EmptyString => Some 0%Q
  | _ => option_map (fun n => inject_Z (Z.of_nat n)) (digits_value s 0)
  end.

(** [Number(v)]; [None] is NaN. *)
Definition js_to_number (v : jsval) : option Q :=
  match v with
  | JUndef | JNaN | JObj _ => None
  | JNull => Some 0%Q
  | JBool b => Some (if b then 1 else 0)%Q
  | JNum q => Some q
  | JStr s => str_to_number s
  | JArr [] => Some 0%Q
  | JArr [x] => str_to_number (js_to_string x)
  | JArr _ => None
  end.

Definition num_to_js (x : option Q) : jsval :=
  match x with Some q => JNum q | None => JNaN end.

(** [Math.round]: the nearest integer, halves rounded up. *)
Definition js_round (x : option Q) : option Q :=
  option_map (fun q => inject_Z (Qfloor (q + (1 # 2))%Q)) x.

Definition js_min (x y : option Q) : option Q :=
  match x, y with Some a, Some b => Some (Qmin a b) | _, _ => None end.

Definition js_max (x y : option Q) : option Q :=
  match x, y with Some a, Some b => Some (Qmax a b) | _, _ => None end.

Definition js_mul (x y : option Q) : option Q :=
  match x, y with Some a, Some b => Some (a * b)%Q | _, _ => None end.

(** Division by the non-zero constants of the program. *)
Definition js_div_const (x : option Q) (c : Q) : option Q :=
  option_map (fun a => (a / c)%Q) x.

(** *** Objects *)

(** A plain object: its own properties in insertion order. *)
Definition obj := list (string * jsval).

(** [o[k] = v]: an existing key keeps its position. *)
Fixpoint obj_set {A} (o : list (string * A)) (k : string) (v : A)
  : list (string * A) :=
  match o with
  | [] => [(k, v)]
  | (k', v') :: o' =>
      if String.eqb k k' then (k', v) :: o' else (k', v') :: obj_set o' k v
  end.

(** [{...base, ...extra}] *)
Definition obj_spread {A} (base extra : list (string * A)) : list (string * A) :=
  fold_left (fun o kv => obj_set o (fst kv) (snd kv)) extra base.

(** *** URLSearchParams *)

Definition hex_digit (n : nat) : ascii :=
  if (n <? 10)%nat then ascii_of_nat (48 + n) else ascii_of_nat (55 + n).

(** application/x-www-form-urlencoded serialisation of one byte. *)
Definition form_encode_char (c : ascii) : string :=
  let n := nat_of_ascii c in
  if ((48 <=? n) && (n <=? 57))%nat || ((65 <=? n) && (n <=? 90))%nat
     || ((97 <=? n) && (n <=? 122))%nat
     || (n =? 42)%nat || (n =? 45)%nat || (n =? 46)%nat || (n =? 95)%nat
  then String c EmptyString
  else if (n =? 32)%nat then "+"%string
  else String "%" (String (hex_digit (n / 16)) (String (hex_digit (n mod 16)) EmptyString)).

Fixpoint form_encode (s : string) : string :=
  match s with
  | EmptyString => EmptyString
  | String c s' => String.append (form_encode_char c) (form_encode s')
  end.

(** [new URLSearchParams(record)]: the entries, values converted with
    [String(.)]. *)
Definition usp_of_obj (o : obj) : list (string * string) :=
  map (fun kv => (fst kv, js_to_string (snd kv))) o.

(** [URLSearchParams.prototype.toString] *)
Definition usp_to_string (e : list (string * string)) : string :=
  concat_sep "&"
    (map (fun kv => String.append (form_encode (fst kv))
                      (String.append "=" (form_encode (snd kv)))) e).

(** [l.get(k)]: the first entry named [k]. *)
Definition usp_get (e : list (string * string)) (k : string) : option string :=
  assoc_get k e.

(** ** The accessory and its world *)

(** The fields of a [DiffuserAccessory] that the operations read or write. *)
Record Accessory : Type := mkAccessory {
  nid : jsval;
  token : jsval;
  username : jsval;
  appid : jsval;
  uid : jsval;
  sessionId : jsval;
  isOn : jsval;
  oilLevel : jsval;
  timerCache : jsval;
  headers : list (string * string)
}.

Definition hostname : string := "amos.us.lbslm.com".
Definition basePath : string := "/amosFragrance".

(** The credentials object resolved by [platform.refreshSession()]. *)
Record Creds : Type := mkCreds {
  c_token : jsval;
  c_uid : jsval;
  c_sessionId : jsval
}.

(** A response body: parsed by [JSON.parse], or text it rejects. *)
Inductive body : Type :=
| BJson (v : jsval)
| BText (s : string).

(** What [http.request] delivers: a response, or the request's [error]. *)
Inductive response : Type :=
| RHttp (statusCode : Z) (b : body)
| RNetError (msg : string).

(** The errors thrown, identified by the constructor the code uses. *)
Inductive error : Type :=
| ENetwork (msg : string)        (* the request's 'error' event *)
| EHttp (statusCode : Z)         (* `API HTTP Error ${res.statusCode}` *)
| EInvalidResponse               (* `Invalid API response: ...` *)
| EApiStatus (status : jsval)    (* `API returned status ${json.status}: ...` *)
| EAuthAfterRetry                (* 'Authentication failed after retry' *)
| ERefresh (msg : string)        (* the rejection of platform.refreshSession() *)
| ENoTimers                      (* 'No timers found to update intensity' *)
| ETypeError                     (* property access on null or undefined *)
| EHapStatus.                    (* HapStatusError(SERVICE_COMMUNICATION_FAILURE) *)

(** The options passed to [http.request] (method GET, port 80). *)
Record Request : Type := mkRequest {
  rq_hostname : string;
  rq_resource : string;             (* resourcePath *)
  rq_query : list (string * string);  (* the URLSearchParams entries *)
  rq_path : string;                 (* `${resourcePath}?${queryParams}` *)
  rq_headers : list (string * string)
}.

(** Callbacks handed to [setTimeout]. *)
Inductive event : Type :=
| EvPoll                                  (* () => this.pollStatus() *)
| EvUpdateChar (name : string) (v : jsval). (* service.updateCharacteristic *)

Record World : Type := mkWorld {
  acc : Accessory;
  net : list response;                  (* the server's answers, in order *)
  sent : list Request;                  (* requests issued, in order *)
  refresh_results : list (Creds + string); (* outcomes of refreshSession() *)
  refresh_calls : nat;
  clock_ms : Z;                         (* Date.now() *)
  char_updates : list (string * jsval); (* updateCharacteristic calls *)
  timers : list (Z * event)             (* setTimeout(cb, delay) calls *)
}.

(** *** Field updates *)

Definition set_creds (a : Accessory) (c : Creds) : Accessory :=
  mkAccessory (nid a) (c_token c) (username a) (appid a) (c_uid c)
    (c_sessionId c) (isOn a) (oilLevel a) (timerCache a) (headers a).

Definition set_isOn (a : Accessory) (v : jsval) : Accessory :=
  mkAccessory (nid a) (token a) (username a) (appid a) (uid a)
    (sessionId a) v (oilLevel a) (timerCache a) (headers a).

Definition set_oilLevel (a : Accessory) (v : jsval) : Accessory :=
  mkAccessory (nid a) (token a) (username a) (appid a) (uid a)
    (sessionId a) (isOn a) v (timerCache a) (headers a).

Definition set_timerCache (a : Accessory) (v : jsval) : Accessory :=
  mkAccessory (nid a) (token a) (username a) (appid a) (uid a)
    (sessionId a) (isOn a) (oilLevel a) v (headers a).

Definition with_acc (w : World) (a : Accessory) : World :=
  mkWorld a (net w) (sent w) (refresh_results w) (refresh_calls w)
    (clock_ms w) (char_updates w) (timers w).

Definition with_net (w : World) (n : list response) : World :=
  mkWorld (acc w) n (sent w) (refresh_results w) (refresh_calls w)
    (clock_ms w) (char_updates w) (timers w).

Definition send (w : World) (r : Request) : World :=
  mkWorld (acc w) (net w) (sent w ++ [r])%list (refresh_results w)
    (refresh_calls w) (clock_ms w) (char_updates w) (timers w).

(** One call of [platform.refreshSession()], consuming its outcome. *)
Definition take_refresh (w : World) (rest : list (Creds + string)) : World :=
  mkWorld (acc w) (net w) (sent w) rest (S (refresh_calls w))
    (clock_ms w) (char_updates w) (timers w).

Definition update_char (w : World) (name : string) (v : jsval) : World :=
  mkWorld (acc w) (net w) (sent w) (refresh_results w) (refresh_calls w)
    (clock_ms w) (char_updates w ++ [(name, v)])%list (timers w).

Definition set_timeout (w : World) (delay : Z) (e : event) : World :=
  mkWorld (acc w) (net w) (sent w) (refresh_results w) (refresh_calls w)
    (clock_ms w) (char_updates w) (timers w ++ [(delay, e)])%list.

(** ** A state and exception monad

    An async method settles with a value ([Ok]), rejects ([Throw]), or
    never settles ([Hang], when the server gives no further answer). *)

Inductive outcome (A : Type) : Type :=
| Ok (a : A)
| Throw (e : error)
| Hang.
Arguments Ok {A} a.
Arguments Throw {A} e.
Arguments Hang {A}.

Definition M (A : Type) : Type := World -> outcome A * World.

Definition ret {A} (a : A) : M A := fun w => (Ok a, w).

Definition throw {A} (e : error) : M A := fun w => (Throw e, w).

Definition bind {A B} (m : M A) (k : A -> M B) : M B :=
  fun w =>
    match m w with
    | (Ok a, w') => k a w'
    | (Throw e, w') => (Throw e, w')
    | (Hang, w') => (Hang, w')
    end.

(** [try { m } catch (e) { h(e) }] *)
Definition try_catch {A} (m : M A) (h : error -> M A) : M A :=
  fun w =>
    match m w with
    | (Throw e, w') => h e w'
    | r => r
    end.

Definition modify (f : World -> World) : M unit := fun w => (Ok tt, f w).
Definition gets {A} (f : World -> A) : M A := fun w => (Ok (f w), w).

(** Property access that throws a TypeError on [null]/[undefined]. *)
Definition get_prop (v : jsval) (k : string) : M jsval :=
  match js_get v k with Some r => ret r | None => throw ETypeError end.

Notation "x <- m ;; k" := (bind m (fun x => k))
  (at level 61, m at next level, right associativity).
Notation "m ;;; k" := (bind m (fun _ => k))
  (at level 61, right associativity).

(** ** [_callApi(path, params = {}, retryCount = 0)] *)

(** The [Cookie] header, rebuilt from the current credential fields. *)
Definition cookie_of (a : Accessory) : string :=
  ("appid=" ++ js_to_string (appid a) ++ ";uid=" ++ js_to_string (uid a) ++
   ";token=" ++ js_to_string (token a) ++ ";SESSIONID=" ++
   js_to_string (sessionId a) ++ ";username=" ++ js_to_string (username a))%string.

(** The query entries: [new URLSearchParams({nid, timestamp, ...params})]. *)
Definition query_entries (a : Accessory) (clock : Z) (params : obj)
  : list (string * string) :=
  let timestamp := JNum (inject_Z clock / inject_Z 1000)%Q in
  usp_of_obj (obj_spread [("nid", nid a); ("timestamp", timestamp)] params).

Definition resource_path (path : string) : string :=
  if String.prefix "/admin" path then path else String.append basePath path.

Definition build_request (a : Accessory) (clock : Z) (path : string)
    (params : obj) : Request :=
  let q := query_entries a clock params in
  let rp := resource_path path in
  mkRequest hostname rp q (rp ++ "?" ++ usp_to_string q)%string
    (obj_spread (headers a) [("Cookie", cookie_of a)]).

(** The recursion of [_callApi] is its one retry ([retryCount < 1]); [fuel]
    bounds it, and [callApi] below gives enough fuel for every call. *)
Fixpoint callApi_fuel (fuel : nat) (path : string) (params : obj)
    (retryCount : nat) (w : World) : outcome jsval * World :=
  match fuel with
  | O => (Hang, w)
  | S fuel' =>
      let w1 := send w (build_request (acc w) (clock_ms w) path params) in
      match net w1 with
      | [] => (Hang, w1)
      | RNetError m :: rest => (Throw (ENetwork m), with_net w1 rest)
      | RHttp code b :: rest =>
          let w2 := with_net w1 rest in
          if code =? 200 then
            match b with
            | BText _ => (Throw EInvalidResponse, w2)
            | BJson json =>
                match js_get json "status" with
                | None => (Throw EInvalidResponse, w2)
                | Some st =>
                    if js_is_str st "AuthenticationException" || js_is_str st "401"
                    then
                      if (retryCount <? 1)%nat then
                        match refresh_results w2 with
                        | [] => (Hang, w2)
                        | inr msg :: rs => (Throw (ERefresh msg), take_refresh w2 rs)
                        | inl creds :: rs =>
                            let w3 := take_refresh w2 rs in
                            let w4 := with_acc w3 (set_creds (acc w3) creds) in
                            callApi_fuel fuel' path params (S retryCount) w4
                        end
                      else (Throw EAuthAfterRetry, w2)
                    else if js_is_str st "200" then (Ok json, w2)
                    else (Throw (EApiStatus st), w2)
                end
            end
          else (Throw (EHttp code), w2)
      end
  end.

Definition callApi (path : string) (params : obj) (retryCount : nat) : M jsval :=
  callApi_fuel (S (1 - retryCount)) path params retryCount.

(** ** Accessory methods *)

(** HAP-NodeJS: [Characteristic.LockPhysicalControls.CONTROL_LOCK_*]. *)
Definition CONTROL_LOCK_DISABLED : jsval := JNum 0.
Definition CONTROL_LOCK_ENABLED : jsval := JNum 1.

Definition set_acc (f : Accessory -> Accessory) : M unit :=
  modify (fun w => with_acc w (f (acc w))).

(** [updateTimerIntensity(newRunTime)] *)
Definition updateTimerIntensity (newRunTime : jsval) : M unit :=
  listJson <- try_catch (callApi "/timerList.do" [("isBluetooth", JNum 0)] 0)
                (fun e => throw e) ;;
  if negb (js_truthy listJson) then throw ENoTimers else
  data <- get_prop listJson "data" ;;
  if negb (js_truthy data) then throw ENoTimers else
  len <- get_prop data "length" ;;
  if negb (js_truthy len) then throw ENoTimers else
  timer <- get_prop data "0" ;;
  set_acc (fun a => set_timerCache a timer) ;;;
  timerId <- get_prop timer "timerId" ;;
  tuid <- get_prop timer "uid" ;;
  name <- get_prop timer "name" ;;
  start <- get_prop timer "start" ;;
  stop <- get_prop timer "stop" ;;
  mode <- get_prop timer "mode" ;;
  suspend <- get_prop timer "suspend" ;;
  let params := [("timerId", timerId); ("uid", tuid); ("name", name);
                 ("start", start); ("stop", stop); ("mode", mode);
                 ("run", newRunTime); ("suspend", suspend)] in
  callApi "/updateTimer.do" params 0 ;;;
  ret tt.

(** [Math.max(5, Math.round(value * 3))] *)
Definition run_time_of (value : Q) : option Q :=
  js_max (Some 5%Q) (js_round (js_mul (Some value) (Some 3%Q))).

(** [setRotationSpeed(value)] *)
Definition setRotationSpeed (value : Q) : M unit :=
  if Qeq_bool value 0 then ret tt else
  let runTime := run_time_of value in
  try_catch (updateTimerIntensity (num_to_js runTime))
    (fun _ => throw EHapStatus).

(** [Math.min(100, Math.round(run / 3))] *)
Definition speed_of_run (run : jsval) : jsval :=
  num_to_js (js_min (Some 100%Q) (js_round (js_div_const (js_to_number run) 3))).

(** [getRotationSpeed()] *)
Definition getRotationSpeed : M jsval :=
  tc <- gets (fun w => timerCache (acc w)) ;;
  if js_truthy tc then
    r <- get_prop tc "run" ;;
    let run := js_or r (JNum 0) in
    ret (speed_of_run run)
  else ret (JNum 50).

(** [setLock(value)] *)
Definition setLock (value : jsval) : M unit :=
  try_catch
    ((if js_truthy value
      then callApi "/admin/amos/deviceLock.do" [] 0
      else callApi "/admin/amos/deviceUnlock.do"
             [("days", JNum 0); ("name", JStr EmptyString)] 0) ;;;
     modify (fun w => set_timeout w 1000 EvPoll))
    (fun _ =>
       modify (fun w => set_timeout w 500
         (EvUpdateChar "LockPhysicalControls"
            (if negb (js_truthy value) then JNum 1 else JNum 0))) ;;;
       throw EHapStatus).

(** [pollStatus()] *)
Definition pollStatus : M unit :=
  try_catch
    (response <- callApi "/amosFragrance.do" [("checkPermissions", JNum 0)] 0 ;;
     if negb (js_truthy response) then ret tt else
     data <- get_prop response "data" ;;
     if negb (js_truthy data) then ret tt else
     st <- get_prop data "status" ;;
     set_acc (fun a => set_isOn a (JBool (js_is_true st))) ;;;
     ll <- get_prop data "liquidLevel" ;;
     set_acc (fun a => set_oilLevel a (js_or ll (JNum 0))) ;;;
     on <- gets (fun w => isOn (acc w)) ;;
     modify (fun w => update_char w "On" on) ;;;
     ol <- gets (fun w => oilLevel (acc w)) ;;
     modify (fun w => update_char w "FilterLifeLevel" ol) ;;;
     lm <- get_prop data "lockMark" ;;
     let lockState := if js_truthy lm then CONTROL_LOCK_ENABLED
                      else CONTROL_LOCK_DISABLED in
     modify (fun w => update_char w "LockPhysicalControls" lockState) ;;;
     run <- get_prop data "run" ;;
     let speed := speed_of_run (js_or run (JNum 0)) in
     modify (fun w => update_char w "RotationSpeed" speed))
    (fun _ => ret tt).

(** [setOn(value)] *)
Definition setOn (value : jsval) : M unit :=
  let endpoint := if js_truthy value then "/openFragrance.do"
                  else "/closeFragrance.do" in
  try_catch
    (callApi endpoint [] 0 ;;;
     set_acc (fun a => set_isOn a value))
    (fun _ => throw EHapStatus).

(** [getOn()] *)
Definition getOn : M jsval := gets (fun w => isOn (acc w)).

(** [getOilLevel()] *)
Definition getOilLevel : M jsval := gets (fun w => js_or (oilLevel (acc w)) (JNum 0)).

(** HAP-NodeJS: [Characteristic.FilterChangeIndication.*]. *)
Definition FILTER_OK : jsval := JNum 0.
Definition CHANGE_FILTER : jsval := JNum 1.

(** [x < c] for a number constant [c]: [x] is converted with [Number(.)],
    and NaN compares false. *)
Definition js_lt_const (x : jsval) (c : Q) : bool :=
  match js_to_number x with
  | Some q => negb (Qle_bool c q)
  | None => false
  end.

(** The [onGet] handler of FilterChangeIndication (in the constructor). *)
Definition filterChangeIndication : M jsval :=
  level <- getOilLevel ;;
  ret (if js_lt_const level 10 then CHANGE_FILTER else FILTER_OK).

(** [resetFilter(value)] *)
Definition resetFilter (value : jsval) : M unit :=
  try_catch
    (callApi "/resetLiquidLevel.do" [("liquidLevel", JNum 100)] 0 ;;;
     set_acc (fun a => set_oilLevel a (JNum 100)) ;;;
     modify (fun w => update_char w "FilterLifeLevel" (JNum 100)) ;;;
     modify (fun w => update_char w "FilterChangeIndication" FILTER_OK))
    (fun _ => throw EHapStatus).

(** The fields the constructor [new DiffuserAccessory(platform, accessory,
    config)] sets: the cloud configuration, [isOn = false], [oilLevel =
    100], [timerCache = null], and the default headers, whose [Cookie] is
    built from the fields just set. *)
Definition accessory_of_config (config : obj) : Accessory :=
  let c := JObj config in
  let a0 := mkAccessory (prop c "nid") (prop c "token") (prop c "username")
              (js_or (prop c "appid") (JStr "19987617")) (prop c "uid")
              (prop c "sessionId") (JBool false) (JNum 100) JNull [] in
  mkAccessory (nid a0) (token a0) (username a0) (appid a0) (uid a0)
    (sessionId a0) (isOn a0) (oilLevel a0) (timerCache a0)
    [("Host", "amos.us.lbslm.com"); ("Accept", "*/*");
     ("User-Agent", "UPerfume/2.1.5 (iPhone; iOS 26.3; Scale/3.00)");
     ("Accept-Language", "en-US;q=1"); ("Connection", "keep-alive");
     ("Cookie", cookie_of a0)].

(** The constructor: the state above, then its first [pollStatus()], here
    run until it settles.  The HomeKit service wiring and the 30 s
    [setInterval] poll are not modelled. *)
Definition construct (config : obj) : M unit :=
  set_acc (fun _ => accessory_of_config config) ;;;
  pollStatus.

(** ** [AuthClient.login(username, password)] (auth.js) *)

Module Auth.

(** [haystack.includes(needle)] *)
Fixpoint includes (haystack needle : string) : bool :=
  String.prefix needle haystack ||
  match haystack with
  | EmptyString => false
  | String _ rest => includes rest needle
  end.

(** What the login POST gets back: the status, the [set-cookie] header
    (an array when present) and the body text. *)
Record LoginResponse : Type := mkLoginResponse {
  lr_statusCode : Z;
  lr_setCookie : option (list string);
  lr_body : string
}.

Inductive login_error : Type :=
| LHttp (statusCode : Z)   (* `HTTP ${res.statusCode}` *)
| LInvalidCredentials      (* 'Invalid Credentials' *)
| LNetwork (msg : string). (* the request's 'error' event *)

(** The settled value of the promise: the cookies (or [null]) or an error. *)
Definition login (r : LoginResponse + string)
  : option (list string) + login_error :=
  match r with
  | inr msg => inr (LNetwork msg)
  | inl res =>
      if (200 <=? lr_statusCode res) && (lr_statusCode res <? 400) then
        match lr_setCookie res with
        | Some cookies => inl (Some cookies)
        | None =>
            if includes (lr_body res) "AuthenticationException"
            then inr LInvalidCredentials
            else inl None
        end
      else inr (LHttp (lr_statusCode res))
  end.

(** The message of a [login] rejection. *)
Definition login_error_msg (e : login_error) : string :=
  match e with
  | LHttp c => "HTTP " ++ Z_to_dec c
  | LInvalidCredentials => "Invalid Credentials"
  | LNetwork m => m
  end.

(** *** String splitting, for the non-empty separators of the code *)

Fixpoint str_drop (n : nat) (s : string) : string :=
  match n, s with
  | O, _ => s
  | S n', String _ s' => str_drop n' s'
  | S _, EmptyString => EmptyString
  end.

(** [s.split(sep)[0]] *)
Fixpoint seg0 (s sep : string) : string :=
  if String.prefix sep s then EmptyString
  else match s with
       | EmptyString => EmptyString
       | String c s' => String c (seg0 s' sep)
       end.

(** What follows the first occurrence of [sep] in [s], if any. *)
Fixpoint after_first (s sep : string) : option string :=
  if String.prefix sep s then Some (str_drop (String.length sep) s)
  else match s with
       | EmptyString => None
       | String _ s' => after_first s' sep
       end.

(** [s.split(sep)[1]] ([None] is [undefined]). *)
Definition split_1 (s sep : string) : option string :=
  option_map (fun r => seg0 r sep) (after_first s sep).

(** The body shared by [extractUid], [extractToken] and [extractSessionId]:
    [for (const c of cookies) if (c.includes(key))
       return c.split(key)[1].split(';')[0]; return null;] *)
Fixpoint extract_cookie (key : string) (cookies : list string) : option string :=
  match cookies with
  | [] => None
  | c :: cs =>
      if includes c key then
        match split_1 c key with
        | Some part => Some (seg0 part ";")
        | None => None   (* unreachable: [c] includes [key] *)
        end
      else extract_cookie key cs
  end.

Definition extractUid (cookies : list string) : option string :=
  extract_cookie "uid=" cookies.
Definition extractToken (cookies : list string) : option string :=
  extract_cookie "token=" cookies.
Definition extractSessionId (cookies : list string) : option string :=
  extract_cookie "sessionId=" cookies.

(** *** [querystring.stringify] (Node.js)

    Strings are byte strings (the UTF-8 encoding of the JavaScript
    string), so escaping each byte is [querystring.escape]. *)

(** The bytes [querystring.escape] leaves as they are. *)
Definition qs_no_escape (n : nat) : bool :=
  ((48 <=? n) && (n <=? 57))%nat || ((65 <=? n) && (n <=? 90))%nat
  || ((97 <=? n) && (n <=? 122))%nat
  || (n =? 33)%nat || (n =? 39)%nat || (n =? 40)%nat || (n =? 41)%nat
  || (n =? 42)%nat || (n =? 45)%nat || (n =? 46)%nat || (n =? 95)%nat
  || (n =? 126)%nat.

Definition qs_escape_char (c : ascii) : string :=
  let n := nat_of_ascii c in
  if qs_no_escape n then String c EmptyString
  else String "%" (String (hex_digit (n / 16)) (String (hex_digit (n mod 16)) EmptyString)).

Fixpoint qs_escape (s : string) : string :=
  match s with
  | EmptyString => EmptyString
  | String c s' => String.append (qs_escape_char c) (qs_escape s')
  end.

(** [stringifyPrimitive] *)
Definition qs_primitive (v : jsval) : string :=
  match v with
  | JStr s => s
  | JNum q => Q_to_dec q
  | JBool true => "true"
  | JBool false => "false"
  | _ => EmptyString
  end.

(** [querystring.stringify(obj)]: [key=value] fields joined by [&]; an
    array value gives one field per element, none when empty. *)
Definition qs_stringify (o : obj) : string :=
  concat_sep "&"
    (flat_map (fun kv =>
       let ks := (qs_escape (fst kv) ++ "=")%string in
       match snd kv with
       | JArr xs => map (fun x => (ks ++ qs_escape (qs_primitive x))%string) xs
       | v => [(ks ++ qs_escape (qs_primitive v))%string]
       end) o).

(** The body of the login POST. *)
Definition login_body (username password : jsval) : string :=
  qs_stringify [("platform", JStr "1"); ("areaCode", JStr "0");
                ("username", username); ("password", password)].

(** *** [fetchDevices(cookies, uid)] *)

(** The request: its path and its [Cookie] header (method POST). *)
Record DevicesRequest : Type := mkDevicesRequest {
  dr_path : string;
  dr_cookie : string
}.

Definition fetch_request (cookies : list string) (uid : string) : DevicesRequest :=
  mkDevicesRequest
    ("/admin/amos/searchForWeb.do?" ++
     qs_stringify [("online", JNum 2); ("uid", JStr uid); ("draw", JNum 1);
                   ("start", JNum 0); ("length", JNum 10)])%string
    (concat_sep "; " (map (fun c => seg0 c ";") cookies)).

(** The settled value of [fetchDevices] for the server's reply (the body,
    or the request's [error] message): [json.data] when [json && json.data],
    [[]] otherwise, and a rejection when the body is not JSON. *)
Definition fetchDevices_result (reply : body + string) : jsval + string :=
  match reply with
  | inr msg => inr msg
  | inl (BText _) => inr "Failed to parse device list JSON"
  | inl (BJson json) =>
      if js_truthy json && js_truthy (prop json "data")
      then inl (prop json "data") else inl (JArr [])
  end.

Definition opt_str (o : option string) : jsval :=
  match o with Some s => JStr s | None => JNull end.

(** [getCredentials(username, password)], for the login reply [lr] and the
    device-list reply [fr]: its settled value ([null] or the credentials
    object, or the rejection's message) and the device-list requests made. *)
Definition getCredentials (lr : LoginResponse + string) (fr : body + string)
  : (jsval + string) * list DevicesRequest :=
  match login lr with
  | inr e => (inr (login_error_msg e), [])
  | inl None => (inr "Login failed: No cookies received", [])
  | inl (Some cookies) =>
      match extractUid cookies with
      | None => (inr "Login success but UID not found in cookies", [])
      | Some uid =>
          if String.eqb uid EmptyString
          then (inr "Login success but UID not found in cookies", [])
          else
            let req := fetch_request cookies uid in
            match fetchDevices_result fr with
            | inr msg => (inr msg, [req])
            | inl devices =>
                if negb (js_truthy devices)
                   || js_strict_eq (prop devices "length") (JNum 0)
                then (inl JNull, [req])
                else
                  let primaryDevice := prop devices "0" in
                  let tok := extractToken cookies in
                  let sid := extractSessionId cookies in
                  match js_get primaryDevice "nid" with
                  | None => (inr (type_error_msg primaryDevice "nid"), [req])
                  | Some pnid =>
                      (inl (JObj [("nid", pnid); ("token", opt_str tok);
                                  ("uid", JStr uid); ("sessionId", opt_str sid);
                                  ("devices", devices)]), [req])
                  end
            end
      end
  end.

(** *** Decoding a form body (the receiving side, to state round trips) *)

Definition hex_val (c : ascii) : option nat :=
  let n := nat_of_ascii c in
  if ((48 <=? n) && (n <=? 57))%nat then Some (n - 48)%nat
  else if ((65 <=? n) && (n <=? 70))%nat then Some (n - 55)%nat
  else if ((97 <=? n) && (n <=? 102))%nat then Some (n - 87)%nat
  else None.

(** [%XX] is the byte [XX], [+] a space, anything else itself. *)
Fixpoint form_unescape (s : string) : string :=
  match s with
  | EmptyString => EmptyString
  | String c x =>
      if Ascii.eqb c "%" then
        match x with
        | String h1 (String h2 rest) =>
            match hex_val h1, hex_val h2 with
            | Some a, Some b => String (ascii_of_nat (a * 16 + b)%nat) (form_unescape rest)
            | _, _ => String c (form_unescape x)
            end
        | _ => String c (form_unescape x)
        end
      else if Ascii.eqb c "+" then String " " (form_unescape x)
      else String c (form_unescape x)
  end.

(** [s.split(sep)] for a one-character separator. *)
Fixpoint split_char (sep : ascii) (s : string) : list string :=
  match s with
  | EmptyString => [EmptyString]
  | String c s' =>
      if Ascii.eqb c sep then EmptyString :: split_char sep s'
      else match split_char sep s' with
           | [] => [String c EmptyString]
           | x :: xs => String c x :: xs
           end
  end.

(** The fields of an [application/x-www-form-urlencoded] string. *)
Definition form_decode (s : string) : list (string * string) :=
  map (fun f => (form_unescape (seg0 f "="),
                 form_unescape (match after_first f "=" with
                                | Some v => v | None => EmptyString end)))
      (split_char "&" s).

End Auth.

(** ** [DiffuserPlatform.refreshSession()] (platform.js)

    The event loop runs one callback at a time, so concurrent callers are
    an interleaving of calls of [refreshSession()] and the completion of the
    in-flight refresh.  A promise is named by a number; [settled] records
    the value each promise settled with. *)

Module Platform.

(** A refresh's settled value: credentials, or the rejection. *)
Inductive result : Type :=
| Resolved (c : Creds)
| Rejected (msg : string).

(** What the in-flight [_executeRefresh()] is doing: a login through
    [AuthClient.getCredentials], or the rejection thrown when no e-mail or
    password is configured. *)
Inductive pending : Type :=
| LoginRunning
| NoCredentialsConfigured.

Definition no_credentials_msg : string :=
  "Cannot refresh session: No Email/Password configured.".

Record PState : Type := mkPState {
  config_ok : bool;                 (* this.config.email && this.config.password *)
  refreshPromise : option nat;      (* this._refreshPromise *)
  in_flight : pending;
  next_promise : nat;
  logins : nat;                     (* getCredentials calls (one login each) *)
  settled : list (nat * result)
}.

(** [refreshSession()]: the promise the caller awaits, and the new state.
    [_executeRefresh()] runs synchronously up to its first [await], so a
    login starts (or the missing configuration is detected) at once. *)
Definition refreshSession (s : PState) : nat * PState :=
  match refreshPromise s with
  | Some p => (p, s)
  | None =>
      let p := next_promise s in
      (p, mkPState (config_ok s) (Some p)
            (if config_ok s then LoginRunning else NoCredentialsConfigured)
            (S p)
            (if config_ok s then S (logins s) else logins s)
            (settled s))
  end.

(** The in-flight refresh settles (the login yields [r]); its [.finally]
    handler clears [_refreshPromise]. *)
Definition complete (r : result) (s : PState) : PState :=
  match refreshPromise s with
  | None => s
  | Some p =>
      let v := match in_flight s with
               | LoginRunning => r
               | NoCredentialsConfigured => Rejected no_credentials_msg
               end in
      mkPState (config_ok s) None (in_flight s) (next_promise s) (logins s)
        ((p, v) :: settled s)
  end.

(** The value a caller awaiting promise [p] receives, once settled. *)
Definition result_of (s : PState) (p : nat) : option result :=
  match find (fun e => Nat.eqb (fst e) p) (settled s) with
  | Some (_, v) => Some v
  | None => None
  end.

(** [_executeRefresh()], for the platform's [config] and the replies to the
    login ([lr]) and to the device-list request ([fr]): the credentials
    object it resolves with, or the message it rejects with.  (This is the
    outcome [_callApi] receives from [refreshSession()].) *)
Definition executeRefresh (config : obj) (lr : Auth.LoginResponse + string)
    (fr : body + string) : Creds + string :=
  let c := JObj config in
  if negb (js_truthy (prop c "email")) || negb (js_truthy (prop c "password"))
  then inr no_credentials_msg
  else
    match fst (Auth.getCredentials lr fr) with
    | inr msg => inr msg
    | inl creds =>
        match js_get creds "token" with
        | None => inr (type_error_msg creds "token")
        | Some t => inl (mkCreds t (prop creds "uid") (prop creds "sessionId"))
        end
    end.

End Platform.

(** ** Discovery and registration (platform.js) *)

Module Launch.

(** What the platform hands to Homebridge, accessories being named by their
    UUID: [this.accessories] (the cached accessories with their
    [displayName]), the arguments of [registerPlatformAccessories] and of
    [updatePlatformAccessories], and the [DiffuserAccessory] objects
    constructed (the UUID of their accessory and their [deviceConfig]). *)
Record Registry : Type := mkRegistry {
  cached : list (string * jsval);
  registered : list (string * jsval);
  updated : list (string * jsval);
  built : list (string * obj)
}.

(** [configureAccessory(accessory)] *)
Definition configureAccessory (uuid : string) (displayName : jsval)
    (r : Registry) : Registry :=
  mkRegistry (cached r ++ [(uuid, displayName)])%list (registered r) (updated r)
    (built r).

(** [addAccessory(deviceConfig)]; [gen] is [api.hap.uuid.generate]. *)
Definition addAccessory (gen : string -> string) (deviceConfig : obj)
    (r : Registry) : Registry :=
  let c := JObj deviceConfig in
  if negb (js_truthy (prop c "token")) || negb (js_truthy (prop c "nid")) then r
  else
    let uuid := gen (js_to_string (prop c "nid")) in
    let name := prop c "name" in
    match find (fun e => String.eqb (fst e) uuid) (cached r) with
    | Some (_, displayName) =>
        if negb (js_strict_eq displayName name) then
          mkRegistry (obj_set (cached r) uuid name) (registered r)
            (updated r ++ [(uuid, name)])%list (built r ++ [(uuid, deviceConfig)])%list
        else
          mkRegistry (cached r) (registered r) (updated r)
            (built r ++ [(uuid, deviceConfig)])%list
    | None =>
        mkRegistry (cached r) (registered r ++ [(uuid, name)])%list (updated r)
          (built r ++ [(uuid, deviceConfig)])%list
    end.

(** The [deviceConfig] built for one device, or the TypeError thrown while
    building it. *)
Definition device_config (config : obj) (session : Creds) (device : jsval)
  : obj + string :=
  let c := JObj config in
  match device with
  | JUndef | JNull => inr (type_error_msg device "nickname")
  | _ =>
      match prop device "nid" with
      | (JUndef | JNull) as v => inr (type_error_msg v "toString")
      | dnid =>
          let dt := prop device "deviceType" in
          inl [("name", js_or (js_or (js_or (prop device "nickname")
                                            (prop device "deviceAlias"))
                                     (prop device "hsn"))
                              (JStr "Smart Diffuser"));
               ("nid", JStr (js_to_string dnid));
               ("token", c_token session);
               ("username", prop c "email");
               ("appid", js_or (prop c "appid") (JStr "19987617"));
               ("uid", c_uid session);
               ("sessionId", c_sessionId session);
               ("oilName", prop device "oilName");
               ("model", if js_truthy dt && js_truthy (prop dt "typeCode")
                         then prop dt "typeCode" else JStr "Smart Diffuser")]
      end
  end.

(** [devices.forEach(device => ...)]: stops at the first exception. *)
Fixpoint forEach_device (gen : string -> string) (config : obj) (session : Creds)
    (ds : list jsval) (r : Registry) : Registry * option string :=
  match ds with
  | [] => (r, None)
  | d :: ds' =>
      match device_config config session d with
      | inr e => (r, Some e)
      | inl dc => forEach_device gen config session ds' (addAccessory gen dc r)
      end
  end.

(** [x > c] for a number constant [c]. *)
Definition js_gt_const (x : jsval) (c : Q) : bool :=
  match js_to_number x with
  | Some q => negb (Qle_bool q c)
  | None => false
  end.

(** [discoverDevices(devices, sessionCreds)]: the registry, and the
    exception thrown, if any. *)
Definition discoverDevices (gen : string -> string) (config : obj)
    (devices : jsval) (session : Creds) (r : Registry) : Registry * option string :=
  if js_truthy devices && js_gt_const (prop devices "length") 0 then
    match devices with
    | JArr ds => forEach_device gen config session ds r
    | _ => (r, Some "devices.forEach is not a function")
    end
  else (r, None).

(** [autoDiscover()], for the replies to the login and to the device-list
    request; every exception is caught and logged. *)
Definition autoDiscover (gen : string -> string) (config : obj)
    (lr : Auth.LoginResponse + string) (fr : body + string) (r : Registry)
  : Registry :=
  match fst (Auth.getCredentials lr fr) with
  | inr _ => r
  | inl creds =>
      if negb (js_truthy creds) then r
      else
        match prop creds "token" with
        | JStr _ =>   (* creds.token.substring(0, 10) *)
            fst (discoverDevices gen config (prop creds "devices")
                   (mkCreds (prop creds "token") (prop creds "uid")
                            (prop creds "sessionId")) r)
        | _ => r      (* TypeError: no [substring] on a non-string *)
        end
  end.

(** The [didFinishLaunching] handler registered by the constructor. *)
Definition didFinishLaunching (gen : string -> string) (config : obj)
    (lr : Auth.LoginResponse + string) (fr : body + string) (r : Registry)
  : Registry :=
  let c := JObj config in
  if js_truthy (prop c "email") && js_truthy (prop c "password")
  then autoDiscover gen config lr fr r
  else r.

End Launch.


(** ** Statement helpers *)

(** The statuses [_callApi] treats as an expired session. *)
Definition is_auth_failure (st : jsval) : bool :=
  js_is_str st "AuthenticationException" || js_is_str st "401".

(** The object [updateTimerIntensity] sends for a fetched timer. *)
Definition timer_update_params (timer : jsval) (newRunTime : jsval) : obj :=
  [("timerId", prop timer "timerId"); ("uid", prop timer "uid");
   ("name", prop timer "name"); ("start", prop timer "start");
   ("stop", prop timer "stop"); ("mode", prop timer "mode");
   ("run", newRunTime); ("suspend", prop timer "suspend")].

(** ** Concrete inputs *)

Module Examples.

Definition acc0 : Accessory :=
  mkAccessory (JStr "1234") (JStr "tok1") (JStr "me@example.com")
    (JStr "19987617") (JStr "u1") (JStr "sid1") (JBool false) (JNum 100) JNull
    [("Host", hostname); ("Accept", "*/*")].

Definition ok200 : response := RHttp 200 (BJson (JObj [("status", JStr "200")])).

Definition auth_exc : response :=
  RHttp 200 (BJson (JObj [("status", JStr "AuthenticationException"); ("msg", JStr "Fail")])).

Definition server_error : response := RHttp 500 (BText EmptyString).

Definition creds1 : Creds := mkCreds (JStr "tok2") (JStr "u2") (JStr "sid2").

Definition world (n : list response) : World :=
  mkWorld acc0 n [] [inl creds1] 0 1700000000123 [] [].

Definition timer1 : jsval :=
  JObj [("timerId", JNum 1); ("uid", JStr "u1"); ("name", JStr "t1");
        ("start", JStr "08:00"); ("stop", JStr "22:00"); ("mode", JNum 1);
        ("run", JNum 5); ("suspend", JNum 120); ("week", JStr "1111111")].

Definition timer_list_json : jsval :=
  JObj [("status", JStr "200"); ("data", JArr [timer1])].

Definition empty_timer_list : response :=
  RHttp 200 (BJson (JObj [("status", JStr "200"); ("data", JArr [])])).

Definition poll_data : jsval :=
  JObj [("status", JBool true); ("run", JNum 90); ("liquidLevel", JNum 0);
        ("lockMark", JBool true)].

Definition poll_json : jsval := JObj [("status", JStr "200"); ("data", poll_data)].

Definition ok_numeric_status : response :=
  RHttp 200 (BJson (JObj [("status", JNum 200)])).

Definition cookies_ok : list string :=
  ["uid=1001; Path=/"; "token=abcdef0123456789; Path=/"; "sessionId=s42; Path=/"].

Definition login_ok : Auth.LoginResponse + string :=
  inl (Auth.mkLoginResponse 200 (Some cookies_ok) EmptyString).

Definition login_no_token : Auth.LoginResponse + string :=
  inl (Auth.mkLoginResponse 200 (Some ["uid=1001; Path=/"; "SESSIONID=s42; Path=/"])
         EmptyString).

Definition device1 : jsval :=
  JObj [("nid", JNum 5566); ("nickname", JStr "Living room");
        ("oilName", JStr "Lavender"); ("deviceType", JObj [("typeCode", JStr "A1")])].

Definition device2 : jsval := JObj [("nid", JNum 7788); ("hsn", JStr "HSN-2")].

Definition devices_reply : body + string :=
  inl (BJson (JObj [("status", JStr "200"); ("data", JArr [device1])])).

Definition no_devices_reply : body + string :=
  inl (BJson (JObj [("status", JStr "200"); ("data", JArr [])])).

Definition platform_config : obj :=
  [("email", JStr "me@example.com"); ("password", JStr "pw")].

Definition session1 : Creds := mkCreds (JStr "abcdef0123456789") (JStr "1001") (JStr "s42").

Definition gen (s : string) : string := ("uuid-" ++ s)%string.

Definition reg0 : Launch.Registry := Launch.mkRegistry [] [] [] [].

End Examples.

(** ** General lemmas *)

Lemma js_get_obj (fs : list (string * jsval)) (k : string) :
  js_get (JObj fs) k = Some (prop (JObj fs) k).
Proof. reflexivity. Qed.

Lemma truthy_get_some (v : jsval) (k : string) :
  js_truthy v = true -> js_get v k = Some (prop v k).
Proof.
  intros H; unfold prop; destruct (js_get v k) eqn:E; auto.
  destruct v; simpl in *; try discriminate;
    repeat match goal with
           | E : context [if ?c then _ else _] |- _ => destruct c
           | E : context [match ?c with _ => _ end] |- _ => destruct c
           end; discriminate.
Qed.

Lemma status_str_truthy (j : jsval) (s : string) :
  js_get j "status" = Some (JStr s) -> js_truthy j = true.
Proof.
  destruct j; simpl; try discriminate; auto.
Qed.

Lemma length_succ_truthy {A} (x : A) (l : list A) :
  js_truthy (JNum (inject_Z (Z.of_nat (length (x :: l))))) = true.
Proof.
  simpl. unfold Qeq_bool, Qle_bool. simpl.
  destruct (Z.of_nat (S (length l))) eqn:E; simpl; lia.
Qed.

Lemma Qeq_bool_pos_zero (p : positive) : Qeq_bool (inject_Z (Z.pos p)) 0 = false.
Proof.
  unfold Qeq_bool. apply Z.eqb_neq. simpl. lia.
Qed.

Lemma assoc_get_obj_set {A} (o : list (string * A)) (k k' : string) (v : A) :
  assoc_get k (obj_set o k' v) =
  if String.eqb k k' then Some v else assoc_get k o.
Proof.
  induction o as [|[k1 v1] o IH]; simpl.
  - reflexivity.
  - destruct (String.eqb k' k1) eqn:E1; simpl.
    + apply String.eqb_eq in E1; subst k1.
      destruct (String.eqb k k'); reflexivity.
    + rewrite IH. destruct (String.eqb k k1) eqn:E2, (String.eqb k k') eqn:E3;
        auto.
      apply String.eqb_eq in E2, E3; subst.
      rewrite String.eqb_refl in E1; discriminate.
Qed.

Lemma assoc_get_not_in {A} (l : list (string * A)) (k : string) :
  ~ In k (map fst l) -> assoc_get k l = None.
Proof.
  induction l as [|[k1 v1] l IH]; simpl; intros Hn; auto.
  destruct (String.eqb k k1) eqn:E.
  - apply String.eqb_eq in E; subst. exfalso; auto.
  - auto.
Qed.

(** Looking a key up in [{...base, ...extra}]: the value of [extra] when it
    has the key, the value of [base] otherwise. *)
Lemma assoc_get_obj_spread {A} (extra base : list (string * A)) (k : string) :
  NoDup (map fst extra) ->
  assoc_get k (obj_spread base extra) =
  match assoc_get k extra with Some v => Some v | None => assoc_get k base end.
Proof.
  unfold obj_spread.
  revert base; induction extra as [|[k1 v1] extra IH]; intros base Hnd; simpl.
  - reflexivity.
  - inversion Hnd as [|? ? Hnin Hnd']; subst.
    rewrite IH by exact Hnd'. simpl. rewrite assoc_get_obj_set.
    destruct (String.eqb k k1) eqn:E.
    + apply String.eqb_eq in E; subst.
      rewrite (assoc_get_not_in extra k1 Hnin). reflexivity.
    + destruct (assoc_get k extra); reflexivity.
Qed.

Lemma assoc_get_usp (o : obj) (k : string) :
  assoc_get k (usp_of_obj o) = option_map js_to_string (assoc_get k o).
Proof.
  induction o as [|[k1 v1] o IH]; simpl; auto.
  destruct (String.eqb k k1); auto.
Qed.

(** What a call of [_callApi] leaves alone, and that it only appends to the
    request log. *)
Lemma callApi_fuel_frame (fuel : nat) (path : string) (params : obj)
    (rc : nat) (w : World) :
  let w' := snd (callApi_fuel fuel path params rc w) in
  (exists l, sent w' = (sent w ++ l)%list) /\
  timerCache (acc w') = timerCache (acc w) /\
  timers w' = timers w /\
  char_updates w' = char_updates w /\
  clock_ms w' = clock_ms w.
Proof.
  revert rc w; induction fuel as [|fuel IH]; intros rc w; cbn zeta.
  - simpl. repeat split; auto. exists []. now rewrite app_nil_r.
  - destruct w as [a n s rr rcalls ck cu tm].
    set (req := build_request a ck path params).
    simpl. fold req.
    destruct n as [|[code b|m] rest]; simpl;
      try (repeat split; auto; exists [req]; reflexivity).
    destruct (code =? 200); simpl;
      try (repeat split; auto; exists [req]; reflexivity).
    destruct b as [json|t]; simpl;
      try (repeat split; auto; exists [req]; reflexivity).
    destruct (js_get json "status") as [st|]; simpl;
      try (repeat split; auto; exists [req]; reflexivity).
    destruct (js_is_str st "AuthenticationException" || js_is_str st "401");
      simpl.
    2: destruct (js_is_str st "200"); simpl;
         repeat split; auto; exists [req]; reflexivity.
    destruct (rc <? 1)%nat; simpl.
    2: repeat split; auto; exists [req]; reflexivity.
    destruct rr as [|[creds|msg] rs]; simpl;
      try (repeat split; auto; exists [req]; reflexivity).
    match goal with |- context [callApi_fuel fuel path params ?r ?w4] =>
      destruct (IH r w4) as [[l Hl] [H1 [H2 [H3 H4]]]] end.
    simpl in *. repeat split; auto.
    exists (req :: l). rewrite Hl, <- app_assoc. reflexivity.
Qed.

(** The first request of a call is built from the credentials and the
    clock current at the call. *)
Lemma callApi_first_request (path : string) (params : obj) (rc : nat)
    (w : World) :
  exists l, sent (snd (callApi path params rc w)) =
            (sent w ++ build_request (acc w) (clock_ms w) path params :: l)%list.
Proof.
  unfold callApi. generalize (1 - rc)%nat as fuel; intro fuel.
  destruct w as [a n s rr rcalls ck cu tm].
  set (req := build_request a ck path params).
  simpl. fold req.
  destruct n as [|[code b|m] rest]; simpl; try (exists []; reflexivity).
  destruct (code =? 200); simpl; try (exists []; reflexivity).
  destruct b as [json|t]; simpl; try (exists []; reflexivity).
  destruct (js_get json "status") as [st|]; simpl; try (exists []; reflexivity).
  destruct (js_is_str st "AuthenticationException" || js_is_str st "401");
    simpl.
  2: destruct (js_is_str st "200"); simpl; exists []; reflexivity.
  destruct (rc <? 1)%nat; simpl.
  2: exists []; reflexivity.
  destruct rr as [|[creds|msg] rs]; simpl; try (exists []; reflexivity).
  match goal with |- context [callApi_fuel fuel path params ?r ?w4] =>
    destruct (callApi_fuel_frame fuel path params r w4) as [[l Hl] _] end.
  simpl in Hl. exists l. rewrite Hl, <- app_assoc. reflexivity.
Qed.

(** A call answered at once with status "200". *)
Lemma callApi_ok_first (path : string) (params : obj) (rc : nat) (w : World)
    (j : jsval) (rest : list response) :
  net w = RHttp 200 (BJson j) :: rest ->
  js_get j "status" = Some (JStr "200") ->
  callApi path params rc w =
  (Ok j, with_net (send w (build_request (acc w) (clock_ms w) path params)) rest).
Proof.
  intros Hn Hs. unfold callApi.
  destruct w as [a n s rr rcalls ck cu tm]; simpl in *; subst n.
  simpl. rewrite Hs. reflexivity.
Qed.

(** A call made with [retryCount >= 1] issues one request and never
    refreshes. *)
Lemma callApi_fuel_no_retry (fuel : nat) (path : string) (params : obj)
    (rc : nat) (w : World) :
  (1 <= rc)%nat ->
  let w' := snd (callApi_fuel fuel path params rc w) in
  (length (sent w') <= S (length (sent w)))%nat /\
  refresh_calls w' = refresh_calls w.
Proof.
  intros Hrc. destruct fuel as [|fuel]; cbn zeta.
  - simpl. split; auto.
  - destruct w as [a n s rr rcalls ck cu tm].
    assert (Hlt : (rc <? 1)%nat = false) by (apply Nat.ltb_ge; exact Hrc).
    simpl.
    repeat match goal with
           | |- context [match ?x with _ => _ end] => destruct x eqn:?
           | |- context [if ?x then _ else _] => destruct x eqn:?
           end; simpl; rewrite ?length_app; simpl;
      try (split; [lia|reflexivity]); congruence.
Qed.

(** Every logical call issues at most two requests and refreshes at most
    once. *)
Lemma callApi_at_most_one_retry (path : string) (params : obj) (w : World) :
  let w' := snd (callApi path params 0 w) in
  (length (sent w') <= length (sent w) + 2)%nat /\
  (refresh_calls w' <= S (refresh_calls w))%nat.
Proof.
  unfold callApi; cbn zeta.
  destruct w as [a n s rr rcalls ck cu tm].
  simpl.
  repeat match goal with
         | |- context [match ?x with _ => _ end] => destruct x eqn:?
         | |- context [if ?x then _ else _] => destruct x eqn:?
         end; simpl; rewrite ?length_app; simpl; split; lia.
Qed.

Lemma cookie_header (a : Accessory) (ck : Z) (path : string) (params : obj) :
  assoc_get "Cookie" (rq_headers (build_request a ck path params)) =
  Some (cookie_of a).
Proof.
  simpl. rewrite assoc_get_obj_set. reflexivity.
Qed.

(** ** Device API Caller: session refresh and retry *)

(** C1: when the first answer is an authentication failure (status
    'AuthenticationException' or '401') and the answer to the retry has
    status '200', the call resolves with that answer, the platform's
    refresh runs exactly once, the cached token, uid and sessionId become
    the refreshed ones, and the retried request's Cookie header is built
    from the refreshed credentials. *)
Theorem callApi_refresh_retry_succeeds (path : string) (params : obj)
    (w : World) (j1 j2 st1 : jsval) (rest : list response) (creds : Creds)
    (rs : list (Creds + string)) :
  net w = RHttp 200 (BJson j1) :: RHttp 200 (BJson j2) :: rest ->
  js_get j1 "status" = Some st1 ->
  is_auth_failure st1 = true ->
  js_get j2 "status" = Some (JStr "200") ->
  refresh_results w = inl creds :: rs ->
  let r := callApi path params 0 w in
  fst r = Ok j2 /\
  refresh_calls (snd r) = S (refresh_calls w) /\
  token (acc (snd r)) = c_token creds /\
  uid (acc (snd r)) = c_uid creds /\
  sessionId (acc (snd r)) = c_sessionId creds /\
  sent (snd r) =
    (sent w ++ [build_request (acc w) (clock_ms w) path params;
                build_request (acc (snd r)) (clock_ms w) path params])%list /\
  assoc_get "Cookie"
    (rq_headers (build_request (acc (snd r)) (clock_ms w) path params)) =
  Some ("appid=" ++ js_to_string (appid (acc w)) ++
        ";uid=" ++ js_to_string (c_uid creds) ++
        ";token=" ++ js_to_string (c_token creds) ++
        ";SESSIONID=" ++ js_to_string (c_sessionId creds) ++
        ";username=" ++ js_to_string (username (acc w))).
Proof.
  intros Hn Hs1 Ha Hs2 Hr. cbn zeta.
  rewrite cookie_header.
  unfold is_auth_failure in Ha.
  destruct w as [a n s rr rcalls ck cu tm]; simpl in *; subst n rr.
  unfold callApi; simpl. rewrite Hs1, Ha. simpl. rewrite Hs2. simpl.
  repeat split; try reflexivity.
  rewrite <- app_assoc. reflexivity.
Qed.

Lemma callApi_refresh_retry_succeeds_witness :
  let r := callApi "/openFragrance.do" [] 0
             (Examples.world [Examples.auth_exc; Examples.ok200]) in
  fst r = Ok (JObj [("status", JStr "200")]) /\
  refresh_calls (snd r) = 1%nat /\
  token (acc (snd r)) = JStr "tok2" /\
  uid (acc (snd r)) = JStr "u2" /\
  sessionId (acc (snd r)) = JStr "sid2" /\
  sent (snd r) =
    [build_request Examples.acc0 1700000000123 "/openFragrance.do" [];
     build_request (acc (snd r)) 1700000000123 "/openFragrance.do" []] /\
  assoc_get "Cookie"
    (rq_headers (build_request (acc (snd r)) 1700000000123 "/openFragrance.do" [])) =
  Some "appid=19987617;uid=u2;token=tok2;SESSIONID=sid2;username=me@example.com".
Proof.
  exact (callApi_refresh_retry_succeeds "/openFragrance.do" []
           (Examples.world [Examples.auth_exc; Examples.ok200])
           (JObj [("status", JStr "AuthenticationException"); ("msg", JStr "Fail")])
           (JObj [("status", JStr "200")]) (JStr "AuthenticationException") []
           Examples.creds1 [] eq_refl eq_refl eq_refl eq_refl eq_refl).
Defined.

(** C2: when the answer to the retry is again an authentication failure,
    the call rejects ('Authentication failed after retry') after exactly two
    requests and one refresh, leaving the later answers unread; and no
    logical call ever issues more than two requests or refreshes more than
    once. *)
Theorem callApi_second_auth_failure_terminal (path : string) (params : obj)
    (w : World) (j1 j2 st1 st2 : jsval) (rest : list response) (creds : Creds)
    (rs : list (Creds + string)) :
  net w = RHttp 200 (BJson j1) :: RHttp 200 (BJson j2) :: rest ->
  js_get j1 "status" = Some st1 ->
  is_auth_failure st1 = true ->
  js_get j2 "status" = Some st2 ->
  is_auth_failure st2 = true ->
  refresh_results w = inl creds :: rs ->
  let r := callApi path params 0 w in
  fst r = Throw EAuthAfterRetry /\
  net (snd r) = rest /\
  length (sent (snd r)) = (length (sent w) + 2)%nat /\
  refresh_calls (snd r) = S (refresh_calls w) /\
  (forall w0 : World,
     let w0' := snd (callApi path params 0 w0) in
     (length (sent w0') <= length (sent w0) + 2)%nat /\
     (refresh_calls w0' <= S (refresh_calls w0))%nat).
Proof.
  intros Hn Hs1 Ha1 Hs2 Ha2 Hr. cbn zeta.
  unfold is_auth_failure in Ha1, Ha2.
  split; [|split; [|split; [|split]]];
    try (intro w0; exact (callApi_at_most_one_retry path params w0));
  destruct w as [a n s rr rcalls ck cu tm]; simpl in *; subst n rr;
    unfold callApi; simpl; rewrite Hs1, Ha1; simpl; rewrite Hs2, Ha2;
    simpl; try reflexivity.
  rewrite !length_app. simpl. lia.
Qed.

Lemma callApi_second_auth_failure_terminal_witness :
  let r := callApi "/openFragrance.do" [] 0
             (Examples.world [Examples.auth_exc; Examples.auth_exc; Examples.ok200]) in
  fst r = Throw EAuthAfterRetry /\
  net (snd r) = [Examples.ok200] /\
  length (sent (snd r)) = 2%nat /\
  refresh_calls (snd r) = 1%nat /\
  (forall w0 : World,
     let w0' := snd (callApi "/openFragrance.do" [] 0 w0) in
     (length (sent w0') <= length (sent w0) + 2)%nat /\
     (refresh_calls w0' <= S (refresh_calls w0))%nat).
Proof.
  exact (callApi_second_auth_failure_terminal "/openFragrance.do" []
           (Examples.world [Examples.auth_exc; Examples.auth_exc; Examples.ok200])
           (JObj [("status", JStr "AuthenticationException"); ("msg", JStr "Fail")])
           (JObj [("status", JStr "AuthenticationException"); ("msg", JStr "Fail")])
           (JStr "AuthenticationException") (JStr "AuthenticationException")
           [Examples.ok200] Examples.creds1 []
           eq_refl eq_refl eq_refl eq_refl eq_refl eq_refl).
Defined.

(** ** Session Coordinator: deduplicated refresh *)

(** C3 (as stated): two calls from the idle state perform exactly one
    login.  Without a configured e-mail and password, [_executeRefresh]
    throws before any login, so the two calls perform none. *)
Lemma refreshSession_two_calls_no_login_unconfigured :
  let s0 := Platform.mkPState false None Platform.LoginRunning 0 0 [] in
  let s2 := snd (Platform.refreshSession (snd (Platform.refreshSession s0))) in
  Platform.logins s2 <> S (Platform.logins s0).
Proof. simpl. discriminate. Qed.

(** C3 (amended): two [refreshSession()] calls with no completion between
    them hand out the same in-flight promise, so both callers receive the
    same settled value; starting from the idle state they start exactly one
    login when an e-mail and password are configured (none otherwise, and
    both then receive the same 'Cannot refresh session' rejection), and
    calls made while a refresh is in flight start none.  When the in-flight refresh settles,
    success or failure, the marker is cleared and the next call starts a
    new login (when configured). *)
Theorem refreshSession_dedup (s : Platform.PState) (r : Platform.result) :
  let p1 := fst (Platform.refreshSession s) in
  let s1 := snd (Platform.refreshSession s) in
  let p2 := fst (Platform.refreshSession s1) in
  let s2 := snd (Platform.refreshSession s1) in
  let s3 := Platform.complete r s2 in
  p1 = p2 /\
  Platform.logins s2 =
    match Platform.refreshPromise s with
    | None => if Platform.config_ok s then S (Platform.logins s)
              else Platform.logins s
    | Some _ => Platform.logins s
    end /\
  Platform.refreshPromise s3 = None /\
  Platform.result_of s3 p1 = Platform.result_of s3 p2 /\
  Platform.result_of s3 p1 =
    Some (match Platform.in_flight s2 with
          | Platform.LoginRunning => r
          | Platform.NoCredentialsConfigured =>
              Platform.Rejected Platform.no_credentials_msg
          end) /\
  (match Platform.refreshPromise s with
   | None => Platform.in_flight s2 =
               if Platform.config_ok s then Platform.LoginRunning
               else Platform.NoCredentialsConfigured
   | Some _ => Platform.in_flight s2 = Platform.in_flight s
   end) /\
  (Platform.refreshPromise s = None ->
   Platform.result_of s3 p1 =
     Some (if Platform.config_ok s then r
           else Platform.Rejected Platform.no_credentials_msg) /\
   Platform.result_of s3 p2 = Platform.result_of s3 p1) /\
  Platform.refreshPromise (snd (Platform.refreshSession s3)) <> None /\
  Platform.logins (snd (Platform.refreshSession s3)) =
    (if Platform.config_ok s then S (Platform.logins s3)
     else Platform.logins s3).
Proof.
  destruct s as [cfg rp inf np lg st]; cbn zeta.
  unfold Platform.refreshSession, Platform.complete, Platform.result_of.
  destruct rp as [p|]; simpl; rewrite ?Nat.eqb_refl; simpl;
    repeat split; try reflexivity; try discriminate.
  all: destruct cfg; simpl; try reflexivity; try discriminate; intros; congruence.
Qed.

Lemma refreshSession_dedup_witness :
  let s := Platform.mkPState false None Platform.LoginRunning 0 0 [] in
  let s1 := snd (Platform.refreshSession s) in
  let s2 := snd (Platform.refreshSession s1) in
  let s3 := Platform.complete (Platform.Resolved Examples.creds1) s2 in
  Platform.logins s2 = 0%nat /\
  Platform.result_of s3 (fst (Platform.refreshSession s)) =
    Some (Platform.Rejected Platform.no_credentials_msg) /\
  Platform.result_of s3 (fst (Platform.refreshSession s1)) =
    Some (Platform.Rejected Platform.no_credentials_msg).
Proof.
  cbn zeta.
  destruct (refreshSession_dedup
              (Platform.mkPState false None Platform.LoginRunning 0 0 [])
              (Platform.Resolved Examples.creds1))
    as (_ & Hl & _ & _ & _ & _ & Hidle & _).
  destruct (Hidle eq_refl) as [H1 H2].
  split; [exact Hl|]. split; [exact H1|]. rewrite H2. exact H1.
Defined.

(** ** Device API Caller: the request it builds *)

(** C4 (as stated): caller-supplied params never replace [nid].  The
    caller's params are spread after [nid] and [timestamp], so a caller key
    [nid] does replace it. *)
Lemma callApi_params_override_nid :
  let w := Examples.world [Examples.ok200] in
  exists req l,
    sent (snd (callApi "/openFragrance.do" [("nid", JStr "9999")] 0 w)) = req :: l /\
    usp_get (rq_query req) "nid" = Some "9999" /\
    js_to_string (nid (acc w)) = "1234".
Proof.
  cbn zeta. do 2 eexists. split; [reflexivity | split; reflexivity].
Qed.

(** C4 (amended): the first request of every call carries the query
    entries [nid] and [timestamp] (the cached device id and [Date.now() /
    1000]) unless the caller's params supply those keys, whose values then
    replace them, and every caller param is sent; a path under [/admin] is
    requested root-relative and any other path under [/amosFragrance]. *)
Theorem callApi_request_shape (path : string) (params : obj) (rc : nat)
    (w : World) :
  NoDup (map fst params) ->
  let req := build_request (acc w) (clock_ms w) path params in
  (exists l, sent (snd (callApi path params rc w)) = (sent w ++ req :: l)%list) /\
  usp_get (rq_query req) "nid" =
    Some (js_to_string (match assoc_get "nid" params with
                        | Some v => v
                        | None => nid (acc w)
                        end)) /\
  usp_get (rq_query req) "timestamp" =
    Some (js_to_string (match assoc_get "timestamp" params with
                        | Some v => v
                        | None => JNum (inject_Z (clock_ms w) / inject_Z 1000)%Q
                        end)) /\
  (forall k v, assoc_get k params = Some v ->
     usp_get (rq_query req) k = Some (js_to_string v)) /\
  rq_resource req =
    (if String.prefix "/admin" path then path else basePath ++ path) /\
  rq_path req = rq_resource req ++ "?" ++ usp_to_string (rq_query req).
Proof.
  intros Hnd. cbn zeta.
  split; [apply callApi_first_request|].
  unfold build_request, query_entries, usp_get; cbn [rq_query rq_resource rq_path].
  rewrite !assoc_get_usp, !(assoc_get_obj_spread params _ _ Hnd).
  repeat split.
  - destruct (assoc_get "nid" params); reflexivity.
  - destruct (assoc_get "timestamp" params); reflexivity.
  - intros k v Hk. rewrite assoc_get_usp, (assoc_get_obj_spread params _ _ Hnd), Hk.
    reflexivity.
Qed.

Lemma callApi_request_shape_witness :
  let w := Examples.world [Examples.ok200] in
  let params := [("days", JNum 0); ("name", JStr EmptyString)] in
  let req := build_request (acc w) (clock_ms w) "/admin/amos/deviceUnlock.do" params in
  NoDup (map fst params) /\
  usp_get (rq_query req) "nid" = Some "1234" /\
  usp_get (rq_query req) "timestamp" = Some "1700000000.123" /\
  rq_resource req = "/admin/amos/deviceUnlock.do".
Proof.
  cbn zeta.
  assert (Hnd : NoDup (map fst [("days", JNum 0); ("name", JStr EmptyString)]))
    by (repeat constructor; simpl; intuition discriminate).
  destruct (callApi_request_shape "/admin/amos/deviceUnlock.do"
              [("days", JNum 0); ("name", JStr EmptyString)] 0
              (Examples.world [Examples.ok200]) Hnd)
    as [_ [Hn [Ht [_ [Hr _]]]]].
  split; [exact Hnd|]. split; [exact Hn|]. split; [exact Ht|]. exact Hr.
Defined.

(** ** Intensity (RotationSpeed) *)

(** [setRotationSpeed(v)], [v <> 0], once the timer list has been fetched:
    the first timer is cached, then the update is sent; the outcome is the
    update's, with any rejection turned into the HAP status error. *)
Lemma setRotationSpeed_after_fetch (v : Q) (w : World) (lj timer : jsval)
    (more : list jsval) (rest : list response) :
  Qeq_bool v 0 = false ->
  net w = RHttp 200 (BJson lj) :: rest ->
  js_get lj "status" = Some (JStr "200") ->
  js_get lj "data" = Some (JArr (timer :: more)) ->
  js_truthy timer = true ->
  let w1 := with_acc
              (with_net (send w (build_request (acc w) (clock_ms w) "/timerList.do"
                                   [("isBluetooth", JNum 0)])) rest)
              (set_timerCache (acc w) timer) in
  let r2 := callApi "/updateTimer.do"
              (timer_update_params timer (num_to_js (run_time_of v))) 0 w1 in
  setRotationSpeed v w =
  (match fst r2 with Ok _ => Ok tt | Throw _ => Throw EHapStatus | Hang => Hang end,
   snd r2).
Proof.
  intros Hv Hn Hs Hd Ht. cbn zeta.
  unfold setRotationSpeed. rewrite Hv.
  unfold try_catch, updateTimerIntensity, bind, ret, throw, get_prop, set_acc,
    modify.
  unfold try_catch, bind, ret, throw, get_prop, set_acc, modify.
  cbv beta.
  rewrite (callApi_ok_first _ _ _ _ _ _ Hn Hs).
  rewrite (status_str_truthy _ _ Hs), Hd.
  cbn -[callApi Qeq_bool].
  rewrite Qeq_bool_pos_zero. cbn -[callApi].
  rewrite !(truthy_get_some timer _ Ht). cbn -[callApi].
  unfold timer_update_params.
  destruct (callApi _ _ 0 _) as [[a|e|] w2]; reflexivity.
Qed.

Lemma Qeq_bool_ge1 (v : Q) : (1 <= v)%Q -> Qeq_bool v 0 = false.
Proof.
  intros H. destruct (Qeq_bool v 0) eqn:E; auto.
  apply Qeq_bool_iff in E. unfold Qeq, Qle in *; simpl in *. lia.
Qed.

Lemma run_time_of_eq (v : Q) :
  run_time_of v = Some (Qmax 5 (inject_Z (Qfloor (v * 3 + (1 # 2))))).
Proof. reflexivity. Qed.

(** After a fetch that finds a timer, the cache holds it, whatever the
    update does. *)
Lemma setRotationSpeed_caches_timer (v : Q) (w : World) (lj timer : jsval)
    (more : list jsval) (rest : list response) :
  Qeq_bool v 0 = false ->
  net w = RHttp 200 (BJson lj) :: rest ->
  js_get lj "status" = Some (JStr "200") ->
  js_get lj "data" = Some (JArr (timer :: more)) ->
  js_truthy timer = true ->
  timerCache (acc (snd (setRotationSpeed v w))) = timer.
Proof.
  intros Hv Hn Hs Hd Ht.
  rewrite (setRotationSpeed_after_fetch v w lj timer more rest Hv Hn Hs Hd Ht).
  cbn zeta. simpl snd. unfold callApi.
  match goal with |- timerCache (acc (snd (callApi_fuel ?f ?p ?q ?r ?w1))) = _ =>
    destruct (callApi_fuel_frame f p q r w1) as [_ [Hc _]] end.
  rewrite Hc. reflexivity.
Qed.

(** C5 (as stated): the update preserves every field of the fetched timer
    except [run].  It sends only [timerId], [uid], [name], [start], [stop],
    [mode] and [suspend]: a timer field such as [week] is not sent. *)
Lemma setRotationSpeed_drops_other_timer_fields :
  let w := Examples.world [RHttp 200 (BJson Examples.timer_list_json); Examples.ok200] in
  let w' := snd (setRotationSpeed 30 w) in
  prop Examples.timer1 "week" = JStr "1111111" /\
  exists req1 req2,
    sent w' = [req1; req2] /\
    rq_resource req2 = "/amosFragrance/updateTimer.do" /\
    usp_get (rq_query req2) "week" = None.
Proof.
  cbn zeta. split; [reflexivity|].
  do 2 eexists. split; [reflexivity|]. split; reflexivity.
Qed.

(** C5 (amended): for an intensity [v] in [1, 100], once the timer list
    has been fetched with a first timer, the next request is the update
    [/updateTimer.do] whose [run] is [max(5, round(v * 3))] and which
    carries the timer's [timerId], [uid], [name], [start], [stop], [mode]
    and [suspend] as fetched (and no other timer field); [v = 0] returns
    without any request; an empty timer list makes the operation fail. *)
Theorem setRotationSpeed_update_request (v : Q) (w : World) (lj timer : jsval)
    (more : list jsval) (rest : list response) :
  (1 <= v <= 100)%Q ->
  net w = RHttp 200 (BJson lj) :: rest ->
  js_get lj "status" = Some (JStr "200") ->
  js_get lj "data" = Some (JArr (timer :: more)) ->
  js_truthy timer = true ->
  let runTime := Qmax 5 (inject_Z (Qfloor (v * 3 + (1 # 2)))) in
  let req1 := build_request (acc w) (clock_ms w) "/timerList.do"
                [("isBluetooth", JNum 0)] in
  let req2 := build_request (acc w) (clock_ms w) "/updateTimer.do"
                (timer_update_params timer (JNum runTime)) in
  (exists l, sent (snd (setRotationSpeed v w)) = (sent w ++ req1 :: req2 :: l)%list) /\
  usp_get (rq_query req2) "run" = Some (Q_to_dec runTime) /\
  (forall k, In k ["timerId"; "uid"; "name"; "start"; "stop"; "mode"; "suspend"] ->
     usp_get (rq_query req2) k = Some (js_to_string (prop timer k))) /\
  map fst (rq_query req2) =
    ["nid"; "timestamp"; "timerId"; "uid"; "name"; "start"; "stop"; "mode";
     "run"; "suspend"] /\
  (forall w0, setRotationSpeed 0 w0 = (Ok tt, w0)) /\
  (forall w0 lj0 rest0,
     net w0 = RHttp 200 (BJson lj0) :: rest0 ->
     js_get lj0 "status" = Some (JStr "200") ->
     js_get lj0 "data" = Some (JArr []) ->
     fst (setRotationSpeed v w0) = Throw EHapStatus).
Proof.
  intros [H1 H100] Hn Hs Hd Ht. cbn zeta.
  pose proof (Qeq_bool_ge1 v H1) as Hv.
  split; [|split; [reflexivity|split; [|split; [reflexivity|split]]]].
  - rewrite (setRotationSpeed_after_fetch v w lj timer more rest Hv Hn Hs Hd Ht).
    cbn zeta. simpl snd.
    match goal with |- context [callApi ?p ?q 0 ?w1] =>
      destruct (callApi_first_request p q 0 w1) as [l Hl] end.
    exists l. rewrite Hl. simpl. rewrite <- app_assoc. reflexivity.
  - intros k Hk. simpl in Hk.
    repeat (destruct Hk as [<-|Hk]; [reflexivity|]). contradiction.
  - intros w0. unfold setRotationSpeed. reflexivity.
  - intros w0 lj0 rest0 Hn0 Hs0 Hd0.
    unfold setRotationSpeed. rewrite Hv.
    unfold try_catch, updateTimerIntensity, bind, ret, throw, get_prop.
    unfold try_catch, bind, ret, throw.
    cbv beta.
    rewrite (callApi_ok_first _ _ _ _ _ _ Hn0 Hs0).
    rewrite (status_str_truthy _ _ Hs0), Hd0. reflexivity.
Qed.

Lemma setRotationSpeed_update_request_witness :
  let w := Examples.world [RHttp 200 (BJson Examples.timer_list_json); Examples.ok200] in
  let req2 := build_request (acc w) (clock_ms w) "/updateTimer.do"
                (timer_update_params Examples.timer1 (JNum 90)) in
  (1 <= 30 <= 100)%Q /\
  (exists l, sent (snd (setRotationSpeed 30 w)) =
             build_request (acc w) (clock_ms w) "/timerList.do"
               [("isBluetooth", JNum 0)] :: req2 :: l) /\
  usp_get (rq_query req2) "run" = Some "90" /\
  usp_get (rq_query req2) "suspend" = Some "120".
Proof.
  cbn zeta.
  assert (Hr : (1 <= 30 <= 100)%Q) by (split; unfold Qle; simpl; lia).
  destruct (setRotationSpeed_update_request 30
              (Examples.world [RHttp 200 (BJson Examples.timer_list_json); Examples.ok200])
              Examples.timer_list_json Examples.timer1 [] [Examples.ok200]
              Hr eq_refl eq_refl eq_refl eq_refl)
    as [Hs [Hrun [Hk _]]].
  split; [exact Hr|]. split; [exact Hs|]. split; [exact Hrun|].
  apply (Hk "suspend"). simpl; tauto.
Defined.

(** C9: reading the intensity makes no request and leaves the world as
    it is; it is [min(100, round(run / 3))] for the cached timer's [run]
    (0 when absent) when a timer is cached, and 50 when none is (the cache
    starts as [null]); right after a successful intensity set it is
    computed from the timer that set fetched and cached. *)
Theorem getRotationSpeed_spec (v : Q) (w : World) (lj timer : jsval)
    (more : list jsval) (rest : list response) :
  Qeq_bool v 0 = false ->
  net w = RHttp 200 (BJson lj) :: rest ->
  js_get lj "status" = Some (JStr "200") ->
  js_get lj "data" = Some (JArr (timer :: more)) ->
  js_truthy timer = true ->
  fst (setRotationSpeed v w) = Ok tt ->
  (forall w0 : World,
     getRotationSpeed w0 =
     (Ok (if js_truthy (timerCache (acc w0))
          then speed_of_run (js_or (prop (timerCache (acc w0)) "run") (JNum 0))
          else JNum 50), w0)) /\
  (forall w0 : World, timerCache (acc w0) = JNull ->
     fst (getRotationSpeed w0) = Ok (JNum 50)) /\
  (forall r : Q, speed_of_run (JNum r) =
     JNum (Qmin 100 (inject_Z (Qfloor (r / 3 + (1 # 2)))))) /\
  (let w' := snd (setRotationSpeed v w) in
   getRotationSpeed w' =
   (Ok (speed_of_run (js_or (prop timer "run") (JNum 0))), w')).
Proof.
  intros Hv Hn Hs Hd Ht _.
  assert (Hget : forall w0 : World,
     getRotationSpeed w0 =
     (Ok (if js_truthy (timerCache (acc w0))
          then speed_of_run (js_or (prop (timerCache (acc w0)) "run") (JNum 0))
          else JNum 50), w0)).
  { intros w0. unfold getRotationSpeed, bind, gets, get_prop, ret.
    destruct (js_truthy (timerCache (acc w0))) eqn:E; [|reflexivity].
    rewrite (truthy_get_some _ "run" E). reflexivity. }
  split; [exact Hget|]. split; [|split].
  - intros w0 H0. rewrite Hget, H0. reflexivity.
  - intros r. reflexivity.
  - cbn zeta. rewrite Hget.
    rewrite (setRotationSpeed_caches_timer v w lj timer more rest Hv Hn Hs Hd Ht).
    rewrite Ht. reflexivity.
Qed.

Lemma getRotationSpeed_spec_witness :
  let w := Examples.world [RHttp 200 (BJson Examples.timer_list_json); Examples.ok200] in
  fst (setRotationSpeed 30 w) = Ok tt /\
  getRotationSpeed (snd (setRotationSpeed 30 w)) =
  (Ok (JNum 2), snd (setRotationSpeed 30 w)).
Proof.
  cbn zeta. split; [reflexivity|].
  destruct (getRotationSpeed_spec 30
              (Examples.world [RHttp 200 (BJson Examples.timer_list_json); Examples.ok200])
              Examples.timer_list_json Examples.timer1 [] [Examples.ok200]
              eq_refl eq_refl eq_refl eq_refl eq_refl eq_refl)
    as [_ [_ [_ Hrt]]].
  exact Hrt.
Defined.

(** C10: the fetched timer is cached before the update is sent, so when
    the update fails the operation rejects (with the HAP status error) yet
    the cache already holds the fetched timer, and a later intensity read
    is computed from it. *)
Theorem setRotationSpeed_failed_update_not_atomic (v : Q) (w : World)
    (lj timer : jsval) (more : list jsval) (rest : list response) (e : error) :
  Qeq_bool v 0 = false ->
  net w = RHttp 200 (BJson lj) :: rest ->
  js_get lj "status" = Some (JStr "200") ->
  js_get lj "data" = Some (JArr (timer :: more)) ->
  js_truthy timer = true ->
  fst (setRotationSpeed v w) = Throw e ->
  let w' := snd (setRotationSpeed v w) in
  e = EHapStatus /\
  timerCache (acc w') = timer /\
  getRotationSpeed w' = (Ok (speed_of_run (js_or (prop timer "run") (JNum 0))), w').
Proof.
  intros Hv Hn Hs Hd Ht Hf. cbn zeta.
  pose proof (setRotationSpeed_caches_timer v w lj timer more rest Hv Hn Hs Hd Ht)
    as Hc.
  split; [|split; [exact Hc|]].
  - rewrite (setRotationSpeed_after_fetch v w lj timer more rest Hv Hn Hs Hd Ht)
      in Hf.
    cbn zeta in Hf. simpl fst in Hf.
    destruct (fst (callApi _ _ 0 _)); congruence.
  - unfold getRotationSpeed, bind, gets, get_prop, ret. rewrite Hc, Ht.
    rewrite (truthy_get_some _ "run" Ht). reflexivity.
Qed.

Lemma setRotationSpeed_failed_update_not_atomic_witness :
  let w := Examples.world [RHttp 200 (BJson Examples.timer_list_json);
                           Examples.server_error] in
  fst (setRotationSpeed 30 w) = Throw EHapStatus /\
  timerCache (acc w) = JNull /\
  timerCache (acc (snd (setRotationSpeed 30 w))) = Examples.timer1 /\
  fst (getRotationSpeed (snd (setRotationSpeed 30 w))) = Ok (JNum 2).
Proof.
  cbn zeta.
  destruct (setRotationSpeed_failed_update_not_atomic 30
              (Examples.world [RHttp 200 (BJson Examples.timer_list_json);
                               Examples.server_error])
              Examples.timer_list_json Examples.timer1 [] [Examples.server_error]
              EHapStatus eq_refl eq_refl eq_refl eq_refl eq_refl eq_refl)
    as [_ [Hc Hg]].
  split; [reflexivity|]. split; [reflexivity|]. split; [exact Hc|].
  rewrite Hg. reflexivity.
Defined.

(** ** Status poll *)

Lemma pollStatus_after_response (w : World) (resp data : jsval)
    (rest : list response) :
  net w = RHttp 200 (BJson resp) :: rest ->
  js_get resp "status" = Some (JStr "200") ->
  js_get resp "data" = Some data ->
  js_truthy data = true ->
  let w1 := with_net (send w (build_request (acc w) (clock_ms w) "/amosFragrance.do"
                                [("checkPermissions", JNum 0)])) rest in
  let on := JBool (js_is_true (prop data "status")) in
  let oil := js_or (prop data "liquidLevel") (JNum 0) in
  pollStatus w =
  (Ok tt,
   update_char
     (update_char
        (update_char
           (update_char
              (with_acc
                 (with_acc w1 (set_isOn (acc w1) on))
                 (set_oilLevel (set_isOn (acc w1) on) oil))
              "On" on)
           "FilterLifeLevel" oil)
        "LockPhysicalControls"
        (if js_truthy (prop data "lockMark") then CONTROL_LOCK_ENABLED
         else CONTROL_LOCK_DISABLED))
     "RotationSpeed" (speed_of_run (js_or (prop data "run") (JNum 0)))).
Proof.
  intros Hn Hs Hd Htd. cbn zeta.
  unfold pollStatus, try_catch, bind, ret, throw, get_prop, set_acc, modify, gets.
  cbv beta.
  rewrite (callApi_ok_first _ _ _ _ _ _ Hn Hs).
  rewrite (status_str_truthy _ _ Hs), Hd. cbn -[js_get js_truthy].
  rewrite Htd. cbn -[js_get].
  rewrite !(truthy_get_some data _ Htd). reflexivity.
Qed.

(** C6: a successful poll whose answer has a [data] payload sets [isOn]
    to [data.status === true] and the consumable level to
    [data.liquidLevel || 0] (0 when absent), and pushes On, FilterLifeLevel,
    LockPhysicalControls (enabled exactly when [lockMark] is truthy) and
    RotationSpeed [min(100, round((data.run || 0) / 3))]; for the answer
    [{status:"200", data:{status:true, run:90, liquidLevel:0,
    lockMark:true}}] that is isOn = true, level 0, locked, 30%. *)
Theorem pollStatus_updates_cache (w : World) (resp data : jsval)
    (rest : list response) :
  net w = RHttp 200 (BJson resp) :: rest ->
  js_get resp "status" = Some (JStr "200") ->
  js_get resp "data" = Some data ->
  js_truthy data = true ->
  let w' := snd (pollStatus w) in
  fst (pollStatus w) = Ok tt /\
  isOn (acc w') = JBool (js_is_true (prop data "status")) /\
  oilLevel (acc w') = js_or (prop data "liquidLevel") (JNum 0) /\
  (prop data "liquidLevel" = JUndef -> oilLevel (acc w') = JNum 0) /\
  char_updates w' =
    (char_updates w ++
     [("On", isOn (acc w')); ("FilterLifeLevel", oilLevel (acc w'));
      ("LockPhysicalControls",
       if js_truthy (prop data "lockMark") then CONTROL_LOCK_ENABLED
       else CONTROL_LOCK_DISABLED);
      ("RotationSpeed", speed_of_run (js_or (prop data "run") (JNum 0)))])%list /\
  (let p := snd (pollStatus (Examples.world [RHttp 200 (BJson Examples.poll_json)])) in
   isOn (acc p) = JBool true /\ oilLevel (acc p) = JNum 0 /\
   char_updates p = [("On", JBool true); ("FilterLifeLevel", JNum 0);
                     ("LockPhysicalControls", CONTROL_LOCK_ENABLED);
                     ("RotationSpeed", JNum 30)]).
Proof.
  intros Hn Hs Hd Htd. cbn zeta.
  rewrite (pollStatus_after_response w resp data rest Hn Hs Hd Htd). simpl.
  repeat split; try reflexivity.
  - intros ->. reflexivity.
  - rewrite <- !app_assoc. reflexivity.
Qed.

Lemma pollStatus_updates_cache_witness :
  let w := Examples.world [RHttp 200 (BJson Examples.poll_json)] in
  fst (pollStatus w) = Ok tt /\
  isOn (acc (snd (pollStatus w))) = JBool true /\
  oilLevel (acc (snd (pollStatus w))) = JNum 0.
Proof.
  cbn zeta.
  destruct (pollStatus_updates_cache
              (Examples.world [RHttp 200 (BJson Examples.poll_json)])
              Examples.poll_json Examples.poll_data [] eq_refl eq_refl eq_refl eq_refl)
    as [Ho [Hi [Hl _]]].
  split; [exact Ho|]. split; [exact Hi|]. exact Hl.
Defined.

(** ** Auth Service login *)

(** C7: a 2xx/3xx answer without a Set-Cookie header rejects with
    'Invalid Credentials' when the body contains 'AuthenticationException'
    and otherwise resolves with [null]; any other status rejects with the
    HTTP error carrying it. *)
Theorem login_outcomes (code : Z) (setCookie : option (list string))
    (body : string) :
  ((200 <= code < 400)%Z -> setCookie = None ->
   Auth.login (inl (Auth.mkLoginResponse code setCookie body)) =
   if Auth.includes body "AuthenticationException"
   then inr Auth.LInvalidCredentials else inl None) /\
  ((code < 200 \/ 400 <= code)%Z ->
   Auth.login (inl (Auth.mkLoginResponse code setCookie body)) =
   inr (Auth.LHttp code)).
Proof.
  split.
  - intros Hc ->. unfold Auth.login; simpl.
    replace ((200 <=? code) && (code <? 400)) with true
      by (symmetry; apply andb_true_iff; split; [apply Z.leb_le | apply Z.ltb_lt]; lia).
    reflexivity.
  - intros Hc. unfold Auth.login; simpl.
    replace ((200 <=? code) && (code <? 400)) with false; [reflexivity|].
    symmetry. apply andb_false_iff.
    destruct Hc; [left; apply Z.leb_gt | right; apply Z.ltb_ge]; lia.
Qed.

Lemma login_outcomes_witness :
  Auth.login (inl (Auth.mkLoginResponse 200 None
     "AuthenticationException: session expired")) = inr Auth.LInvalidCredentials /\
  Auth.login (inl (Auth.mkLoginResponse 200 None "ok")) = inl None /\
  Auth.login (inl (Auth.mkLoginResponse 503 None EmptyString)) = inr (Auth.LHttp 503).
Proof.
  split; [|split].
  - rewrite (proj1 (login_outcomes 200 None _) ltac:(lia) eq_refl). reflexivity.
  - rewrite (proj1 (login_outcomes 200 None _) ltac:(lia) eq_refl). reflexivity.
  - exact (proj2 (login_outcomes 503 None EmptyString) ltac:(lia)).
Defined.

(** ** Child lock *)

(** C8: [setLock(value)] calls [/admin/amos/deviceLock.do] for a truthy
    value and [/admin/amos/deviceUnlock.do] with [days=0] and [name=""]
    otherwise; when that call rejects, it schedules, after 500 ms, an
    update of LockPhysicalControls to the opposite of [value] (0 for a
    truthy value, 1 otherwise) and rejects with the HAP status error; when
    it succeeds, it schedules a poll after 1000 ms and resolves. *)
Theorem setLock_spec (value : jsval) (w : World) :
  let path := if js_truthy value then "/admin/amos/deviceLock.do"
              else "/admin/amos/deviceUnlock.do" in
  let params := if js_truthy value then []
                else [("days", JNum 0); ("name", JStr EmptyString)] in
  let r := callApi path params 0 w in
  (exists l, sent (snd (setLock value w)) =
             (sent w ++ build_request (acc w) (clock_ms w) path params :: l)%list) /\
  (forall e, fst r = Throw e ->
     setLock value w =
     (Throw EHapStatus,
      set_timeout (snd r) 500
        (EvUpdateChar "LockPhysicalControls"
           (if js_truthy value then JNum 0 else JNum 1)))) /\
  (forall j, fst r = Ok j ->
     setLock value w = (Ok tt, set_timeout (snd r) 1000 EvPoll)).
Proof.
  cbn zeta.
  assert (Hunf : setLock value w =
    match callApi (if js_truthy value then "/admin/amos/deviceLock.do"
                   else "/admin/amos/deviceUnlock.do")
                  (if js_truthy value then []
                   else [("days", JNum 0); ("name", JStr EmptyString)]) 0 w with
    | (Ok _, w1) => (Ok tt, set_timeout w1 1000 EvPoll)
    | (Throw _, w1) =>
        (Throw EHapStatus,
         set_timeout w1 500
           (EvUpdateChar "LockPhysicalControls"
              (if js_truthy value then JNum 0 else JNum 1)))
    | (Hang, w1) => (Hang, w1)
    end).
  { unfold setLock, try_catch, bind, modify, throw.
    destruct (js_truthy value);
      destruct (callApi _ _ 0 w) as [[j|e|] w1]; reflexivity. }
  rewrite Hunf.
  split; [|split].
  - match goal with |- context [callApi ?p ?q 0 w] =>
      destruct (callApi_first_request p q 0 w) as [l Hl] end.
    destruct (callApi _ _ 0 w) as [[j|e|] w1] eqn:E; simpl in Hl |- *;
      exists l; exact Hl.
  - intros e He. destruct (callApi _ _ 0 w) as [[j|e'|] w1]; simpl in *;
      first [reflexivity | discriminate].
  - intros j Hj. destruct (callApi _ _ 0 w) as [[j'|e|] w1]; simpl in *;
      first [reflexivity | discriminate].
Qed.

Lemma setLock_spec_witness :
  let w := Examples.world [Examples.server_error] in
  fst (callApi "/admin/amos/deviceUnlock.do"
         [("days", JNum 0); ("name", JStr EmptyString)] 0 w) = Throw (EHttp 500) /\
  setLock (JNum 0) w =
  (Throw EHapStatus,
   set_timeout (snd (callApi "/admin/amos/deviceUnlock.do"
                       [("days", JNum 0); ("name", JStr EmptyString)] 0 w))
     500 (EvUpdateChar "LockPhysicalControls" (JNum 1))).
Proof.
  cbn zeta. split; [reflexivity|].
  destruct (setLock_spec (JNum 0) (Examples.world [Examples.server_error]))
    as [_ [Hf _]].
  exact (Hf (EHttp 500) eq_refl).
Defined.

(** * Further properties of the code *)

(** ** Accessory: power, consumable level, filter reset, construction *)

Ltac split_refl := repeat split; reflexivity.

(** What a call of [_callApi] leaves alone in the accessory and the
    HomeKit world. *)
Lemma callApi_fuel_keeps_state (fuel : nat) (path : string) (params : obj)
    (rc : nat) (w : World) :
  let w' := snd (callApi_fuel fuel path params rc w) in
  isOn (acc w') = isOn (acc w) /\
  oilLevel (acc w') = oilLevel (acc w) /\
  timerCache (acc w') = timerCache (acc w) /\
  char_updates w' = char_updates w /\
  timers w' = timers w.
Proof.
  revert rc w; induction fuel as [|fuel IH]; intros rc w; cbn zeta.
  - split_refl.
  - destruct w as [a n s rr rcalls ck cu tm]. simpl.
    destruct n as [|[code b|m] rest]; simpl; try split_refl.
    destruct (code =? 200); simpl; try split_refl.
    destruct b as [json|t]; simpl; try split_refl.
    destruct (js_get json "status") as [st|]; simpl; try split_refl.
    destruct (js_is_str st "AuthenticationException" || js_is_str st "401");
      simpl.
    2: destruct (js_is_str st "200"); simpl; split_refl.
    destruct (rc <? 1)%nat; simpl; try split_refl.
    destruct rr as [|[creds|msg] rs]; simpl; try split_refl.
    match goal with |- context [callApi_fuel fuel path params ?r ?w4] =>
      destruct (IH r w4) as (H1 & H2 & H3 & H4 & H5) end.
    simpl in *. repeat split; assumption.
Qed.

Lemma callApi_keeps_state (path : string) (params : obj) (rc : nat) (w : World) :
  let w' := snd (callApi path params rc w) in
  isOn (acc w') = isOn (acc w) /\
  oilLevel (acc w') = oilLevel (acc w) /\
  timerCache (acc w') = timerCache (acc w) /\
  char_updates w' = char_updates w /\
  timers w' = timers w.
Proof. apply callApi_fuel_keeps_state. Qed.

(** [setOn(value)] calls [/openFragrance.do] for a truthy [value] and
    [/closeFragrance.do] otherwise, with no parameter of its own; when the
    call succeeds the cached state becomes [value] itself (read back by
    [getOn()]); when it rejects, the cached state is unchanged and the
    operation rejects with the HAP status error. *)
Theorem setOn_outcomes (value : jsval) (w : World) :
  let path := if js_truthy value then "/openFragrance.do" else "/closeFragrance.do" in
  let r := callApi path [] 0 w in
  (exists l, sent (snd (setOn value w)) =
             (sent w ++ build_request (acc w) (clock_ms w) path [] :: l)%list) /\
  (forall j, fst r = Ok j ->
     setOn value w = (Ok tt, with_acc (snd r) (set_isOn (acc (snd r)) value)) /\
     getOn (snd (setOn value w)) = (Ok value, snd (setOn value w))) /\
  (forall e, fst r = Throw e ->
     setOn value w = (Throw EHapStatus, snd r) /\
     isOn (acc (snd (setOn value w))) = isOn (acc w)).
Proof.
  cbn zeta.
  assert (Hunf : setOn value w =
    match callApi (if js_truthy value then "/openFragrance.do"
                   else "/closeFragrance.do") [] 0 w with
    | (Ok _, w1) => (Ok tt, with_acc w1 (set_isOn (acc w1) value))
    | (Throw _, w1) => (Throw EHapStatus, w1)
    | (Hang, w1) => (Hang, w1)
    end).
  { unfold setOn, try_catch, bind, set_acc, modify, throw.
    destruct (js_truthy value);
      destruct (callApi _ _ 0 w) as [[j|e|] w1]; reflexivity. }
  rewrite Hunf.
  pose proof (callApi_keeps_state (if js_truthy value then "/openFragrance.do"
                                   else "/closeFragrance.do") [] 0 w)
    as (Hon & _).
  split; [|split].
  - match goal with |- context [callApi ?p ?q 0 w] =>
      destruct (callApi_first_request p q 0 w) as [l Hl] end.
    destruct (callApi _ _ 0 w) as [[j|e|] w1]; simpl in Hl |- *;
      exists l; exact Hl.
  - intros j Hj. destruct (callApi _ _ 0 w) as [[j'|e|] w1]; simpl in *;
      try discriminate.
    split; reflexivity.
  - intros e He. destruct (callApi _ _ 0 w) as [[j|e'|] w1]; simpl in *;
      try discriminate.
    split; [reflexivity | exact Hon].
Qed.

Lemma setOn_outcomes_witness :
  let w := Examples.world [Examples.ok200] in
  fst (callApi "/openFragrance.do" [] 0 w) = Ok (JObj [("status", JStr "200")]) /\
  getOn (snd (setOn (JNum 1) w)) = (Ok (JNum 1), snd (setOn (JNum 1) w)).
Proof.
  cbn zeta. split; [reflexivity|].
  destruct (setOn_outcomes (JNum 1) (Examples.world [Examples.ok200]))
    as [_ [Hok _]].
  exact (proj2 (Hok (JObj [("status", JStr "200")]) eq_refl)).
Defined.



(** [resetFilter(value)] sends [/resetLiquidLevel.do] with [liquidLevel=100];
    when it succeeds the cached level becomes 100, FilterLifeLevel 100 and
    FilterChangeIndication FILTER_OK are pushed, and reads then give 100
    and FILTER_OK; when it rejects, the level and the characteristics are
    unchanged and the operation rejects with the HAP status error. *)
Theorem resetFilter_outcomes (value : jsval) (w : World) :
  let params := [("liquidLevel", JNum 100)] in
  let r := callApi "/resetLiquidLevel.do" params 0 w in
  let req := build_request (acc w) (clock_ms w) "/resetLiquidLevel.do" params in
  let w' := snd (resetFilter value w) in
  (exists l, sent w' = (sent w ++ req :: l)%list) /\
  usp_get (rq_query req) "liquidLevel" = Some "100" /\
  (forall j, fst r = Ok j ->
     fst (resetFilter value w) = Ok tt /\
     oilLevel (acc w') = JNum 100 /\
     char_updates w' =
       (char_updates w ++ [("FilterLifeLevel", JNum 100);
                           ("FilterChangeIndication", FILTER_OK)])%list /\
     fst (getOilLevel w') = Ok (JNum 100) /\
     fst (filterChangeIndication w') = Ok FILTER_OK) /\
  (forall e, fst r = Throw e ->
     fst (resetFilter value w) = Throw EHapStatus /\
     oilLevel (acc w') = oilLevel (acc w) /\
     char_updates w' = char_updates w).
Proof.
  cbn zeta.
  assert (Hunf : resetFilter value w =
    match callApi "/resetLiquidLevel.do" [("liquidLevel", JNum 100)] 0 w with
    | (Ok _, w1) =>
        (Ok tt, update_char (update_char (with_acc w1 (set_oilLevel (acc w1) (JNum 100)))
                   "FilterLifeLevel" (JNum 100)) "FilterChangeIndication" FILTER_OK)
    | (Throw _, w1) => (Throw EHapStatus, w1)
    | (Hang, w1) => (Hang, w1)
    end).
  { unfold resetFilter, try_catch, bind, set_acc, modify, throw.
    destruct (callApi _ _ 0 w) as [[j|e|] w1]; reflexivity. }
  rewrite Hunf.
  pose proof (callApi_keeps_state "/resetLiquidLevel.do" [("liquidLevel", JNum 100)] 0 w)
    as (_ & Hoil & _ & Hcu & _).
  split; [|split; [reflexivity|split]].
  - destruct (callApi_first_request "/resetLiquidLevel.do" [("liquidLevel", JNum 100)] 0 w)
      as [l Hl].
    destruct (callApi _ _ 0 w) as [[j|e|] w1]; simpl in Hl |- *;
      exists l; exact Hl.
  - intros j Hj. destruct (callApi _ _ 0 w) as [[j'|e|] w1]; simpl in *;
      try discriminate.
    rewrite Hcu, <- app_assoc. split_refl.
  - intros e He. destruct (callApi _ _ 0 w) as [[j|e'|] w1]; simpl in *;
      try discriminate.
    split; [reflexivity|]. split; assumption.
Qed.

Lemma resetFilter_outcomes_witness :
  let w := Examples.world [Examples.ok200] in
  fst (callApi "/resetLiquidLevel.do" [("liquidLevel", JNum 100)] 0 w) =
    Ok (JObj [("status", JStr "200")]) /\
  oilLevel (acc (snd (resetFilter (JNum 1) w))) = JNum 100 /\
  fst (filterChangeIndication (snd (resetFilter (JNum 1) w))) = Ok FILTER_OK.
Proof.
  cbn zeta. split; [reflexivity|].
  destruct (resetFilter_outcomes (JNum 1) (Examples.world [Examples.ok200]))
    as (_ & _ & Hok & _).
  destruct (Hok (JObj [("status", JStr "200")]) eq_refl) as (_ & Hl & _ & _ & Hf).
  split; assumption.
Defined.

(** [pollStatus()] never rejects; when its call rejects, or the answer
    has no [data], it resolves leaving the cached power state, level and
    characteristics as they were. *)
Theorem pollStatus_failure_harmless (w : World) :
  let params := [("checkPermissions", JNum 0)] in
  let r := callApi "/amosFragrance.do" params 0 w in
  (forall e, fst (pollStatus w) <> Throw e) /\
  (forall e, fst r = Throw e ->
     pollStatus w = (Ok tt, snd r) /\
     isOn (acc (snd r)) = isOn (acc w) /\
     oilLevel (acc (snd r)) = oilLevel (acc w) /\
     char_updates (snd r) = char_updates w) /\
  (forall resp rest,
     net w = RHttp 200 (BJson resp) :: rest ->
     js_get resp "status" = Some (JStr "200") ->
     js_truthy (prop resp "data") = false ->
     pollStatus w =
       (Ok tt, with_net (send w (build_request (acc w) (clock_ms w)
                                   "/amosFragrance.do" params)) rest)).
Proof.
  cbn zeta. split; [|split].
  - intros e. unfold pollStatus, try_catch.
    destruct (bind _ _ w) as [[u|e'|] w1]; simpl; discriminate.
  - intros e He.
    pose proof (callApi_keeps_state "/amosFragrance.do" [("checkPermissions", JNum 0)] 0 w)
      as (Hon & Hoil & _ & Hcu & _).
    split; [|split; [exact Hon|split; assumption]].
    unfold pollStatus, try_catch, bind.
    destruct (callApi _ _ 0 w) as [[j|e'|] w1]; simpl in *; try discriminate.
    reflexivity.
  - intros resp rest Hn Hs Hd.
    unfold pollStatus, try_catch, bind, ret, get_prop.
    rewrite (callApi_ok_first _ _ _ _ _ _ Hn Hs).
    rewrite (status_str_truthy _ _ Hs). simpl.
    rewrite (truthy_get_some resp "data" (status_str_truthy _ _ Hs)).
    simpl. rewrite Hd. reflexivity.
Qed.

Lemma pollStatus_failure_harmless_witness :
  let w := Examples.world [Examples.server_error] in
  fst (callApi "/amosFragrance.do" [("checkPermissions", JNum 0)] 0 w) = Throw (EHttp 500) /\
  isOn (acc (snd (pollStatus w))) = JBool false /\
  fst (pollStatus w) = Ok tt.
Proof.
  cbn zeta. split; [reflexivity|].
  destruct (pollStatus_failure_harmless (Examples.world [Examples.server_error]))
    as (_ & Hf & _).
  destruct (Hf (EHttp 500) eq_refl) as (Hp & Hon & _).
  rewrite Hp. split; [exact Hon | reflexivity].
Defined.

(** ** Device API Caller: answers that end a call at once *)

(** Any HTTP status other than exactly 200 (a 201 or 204 included, and
    whatever the body says) rejects the call with the HTTP error after one
    request, with no refresh and no other change. *)
Theorem callApi_http_error (path : string) (params : obj) (rc : nat) (w : World)
    (code : Z) (b : body) (rest : list response) :
  net w = RHttp code b :: rest ->
  code <> 200 ->
  callApi path params rc w =
  (Throw (EHttp code),
   with_net (send w (build_request (acc w) (clock_ms w) path params)) rest).
Proof.
  intros Hn Hc. unfold callApi.
  destruct w as [a n s rr rcalls ck cu tm]; simpl in *; subst n.
  simpl. replace (code =? 200) with false by (symmetry; apply Z.eqb_neq; exact Hc).
  reflexivity.
Qed.

Lemma callApi_http_error_witness :
  callApi "/openFragrance.do" [] 0 (Examples.world [RHttp 204 (BText EmptyString)]) =
  (Throw (EHttp 204),
   with_net (send (Examples.world [RHttp 204 (BText EmptyString)])
               (build_request Examples.acc0 1700000000123 "/openFragrance.do" [])) []).
Proof.
  exact (callApi_http_error "/openFragrance.do" [] 0
           (Examples.world [RHttp 204 (BText EmptyString)]) 204 (BText EmptyString) []
           eq_refl ltac:(discriminate)).
Defined.

(** A 200 answer that is not JSON, or is JSON without a readable [status]
    ([null]), rejects with 'Invalid API response'; one whose [status] is
    neither an authentication failure nor the string '200' (the number 200
    included: statuses are compared as strings) rejects with 'API returned
    status ...'.  Either way after one request and with no refresh. *)
Theorem callApi_unusable_answer (path : string) (params : obj) (rc : nat)
    (w : World) (b : body) (rest : list response) :
  net w = RHttp 200 b :: rest ->
  let w1 := with_net (send w (build_request (acc w) (clock_ms w) path params)) rest in
  (forall t, b = BText t -> callApi path params rc w = (Throw EInvalidResponse, w1)) /\
  (forall json, b = BJson json -> js_get json "status" = None ->
     callApi path params rc w = (Throw EInvalidResponse, w1)) /\
  (forall json st, b = BJson json -> js_get json "status" = Some st ->
     is_auth_failure st = false -> js_is_str st "200" = false ->
     callApi path params rc w = (Throw (EApiStatus st), w1)).
Proof.
  intros Hn. cbn zeta. unfold callApi, is_auth_failure.
  destruct w as [a n s rr rcalls ck cu tm]; simpl in *; subst n.
  split; [|split].
  - intros t ->. reflexivity.
  - intros json -> Hs. simpl. rewrite Hs. reflexivity.
  - intros json st -> Hs Ha H2. simpl. rewrite Hs, Ha, H2. reflexivity.
Qed.

Lemma callApi_unusable_answer_witness :
  let w := Examples.world [Examples.ok_numeric_status] in
  fst (callApi "/openFragrance.do" [] 0 w) = Throw (EApiStatus (JNum 200)).
Proof.
  cbn zeta.
  destruct (callApi_unusable_answer "/openFragrance.do" [] 0
              (Examples.world [Examples.ok_numeric_status])
              (BJson (JObj [("status", JNum 200)])) [] eq_refl)
    as (_ & _ & H).
  rewrite (H (JObj [("status", JNum 200)]) (JNum 200) eq_refl eq_refl eq_refl eq_refl).
  reflexivity.
Defined.

(** When the first answer is an authentication failure and the platform's
    refresh rejects, the call rejects with that rejection after one request
    and one refresh, the cached credentials unchanged. *)
Theorem callApi_refresh_rejected (path : string) (params : obj) (w : World)
    (j st : jsval) (rest : list response) (msg : string)
    (rs : list (Creds + string)) :
  net w = RHttp 200 (BJson j) :: rest ->
  js_get j "status" = Some st ->
  is_auth_failure st = true ->
  refresh_results w = inr msg :: rs ->
  let r := callApi path params 0 w in
  r = (Throw (ERefresh msg),
       take_refresh (with_net (send w (build_request (acc w) (clock_ms w) path params))
                       rest) rs) /\
  acc (snd r) = acc w /\
  length (sent (snd r)) = S (length (sent w)) /\
  refresh_calls (snd r) = S (refresh_calls w).
Proof.
  intros Hn Hs Ha Hr. cbn zeta. unfold is_auth_failure in Ha.
  destruct w as [a n s rr rcalls ck cu tm]; simpl in *; subst n rr.
  unfold callApi; simpl. rewrite Hs, Ha. simpl.
  rewrite length_app. simpl. split_refl || (repeat split; simpl; lia).
Qed.

Lemma callApi_refresh_rejected_witness :
  let w := mkWorld Examples.acc0 [Examples.auth_exc; Examples.ok200] []
             [inr "Invalid Credentials"] 0 1700000000123 [] [] in
  fst (callApi "/openFragrance.do" [] 0 w) = Throw (ERefresh "Invalid Credentials") /\
  acc (snd (callApi "/openFragrance.do" [] 0 w)) = Examples.acc0.
Proof.
  cbn zeta.
  destruct (callApi_refresh_rejected "/openFragrance.do" []
              (mkWorld Examples.acc0 [Examples.auth_exc; Examples.ok200] []
                 [inr "Invalid Credentials"] 0 1700000000123 [] [])
              (JObj [("status", JStr "AuthenticationException"); ("msg", JStr "Fail")])
              (JStr "AuthenticationException") [Examples.ok200] "Invalid Credentials" []
              eq_refl eq_refl eq_refl eq_refl)
    as (Hr & Ha & _).
  rewrite Hr. split; [reflexivity|]. rewrite <- Ha, Hr. reflexivity.
Defined.

(** ** Construction *)

(** The steps that only read or update the cache, the characteristics or
    the timers add no request. *)
Lemma bind_keeps_sent {A B} (m : M A) (k : A -> M B) :
  (forall w, sent (snd (m w)) = sent w) ->
  (forall a w, sent (snd (k a w)) = sent w) ->
  forall w, sent (snd (bind m k w)) = sent w.
Proof.
  intros Hm Hk w. unfold bind.
  specialize (Hm w). destruct (m w) as [[a|e|] w']; simpl in *; auto.
  rewrite Hk. exact Hm.
Qed.

Lemma get_prop_keeps_sent (v : jsval) (k : string) (w : World) :
  sent (snd (get_prop v k w)) = sent w.
Proof. unfold get_prop. destruct (js_get v k); reflexivity. Qed.

Ltac keeps_sent :=
  repeat match goal with
  | |- forall w, sent (snd (bind _ _ w)) = sent w =>
      apply bind_keeps_sent; [|intros ?]
  | |- forall w, sent (snd ((if ?c then _ else _) w)) = sent w => destruct c
  | |- forall w, sent (snd (get_prop _ _ w)) = sent w =>
      intro; apply get_prop_keeps_sent
  | |- forall w, sent (snd (_ w)) = sent w => intro; reflexivity
  | |- forall a w, _ => intros ?
  end.

Lemma bind_sent_eq {A B} (m : M A) (k : A -> M B) (w : World) :
  (forall a w', sent (snd (k a w')) = sent w') ->
  sent (snd (bind m k w)) = sent (snd (m w)).
Proof.
  intros Hk. unfold bind. destruct (m w) as [[a|e|] w']; simpl; auto.
Qed.

Lemma try_catch_sent_eq {A} (m : M A) (h : error -> M A) (w : World) :
  (forall e w', sent (snd (h e w')) = sent w') ->
  sent (snd (try_catch m h w)) = sent (snd (m w)).
Proof.
  intros Hh. unfold try_catch. destruct (m w) as [[a|e|] w']; simpl; auto.
Qed.

Lemma pollStatus_first_request (w : World) :
  exists l, sent (snd (pollStatus w)) =
    (sent w ++ build_request (acc w) (clock_ms w) "/amosFragrance.do"
                 [("checkPermissions", JNum 0)] :: l)%list.
Proof.
  destruct (callApi_first_request "/amosFragrance.do" [("checkPermissions", JNum 0)] 0 w)
    as [l Hl].
  exists l. rewrite <- Hl.
  unfold pollStatus.
  rewrite try_catch_sent_eq by (intros; reflexivity).
  apply bind_sent_eq. keeps_sent.
Qed.

(** A new accessory takes its cloud fields from its configuration, with
    the app id '19987617' when none is configured, and its default headers
    carry the Cookie built from them; its first poll is requested with
    those credentials; and when that poll fails, HomeKit reads Off, a
    level of 100 with FILTER_OK, and an intensity of 50. *)
Theorem construct_initial_state (config : obj) (w : World) :
  let a := accessory_of_config config in
  let pparams := [("checkPermissions", JNum 0)] in
  appid a = js_or (prop (JObj config) "appid") (JStr "19987617") /\
  assoc_get "Cookie" (headers a) = Some (cookie_of a) /\
  (exists l, sent (snd (construct config w)) =
             (sent w ++ build_request a (clock_ms w) "/amosFragrance.do" pparams :: l)%list) /\
  (forall e, fst (callApi "/amosFragrance.do" pparams 0 (with_acc w a)) = Throw e ->
     let w' := snd (construct config w) in
     fst (construct config w) = Ok tt /\
     fst (getOn w') = Ok (JBool false) /\
     fst (getOilLevel w') = Ok (JNum 100) /\
     fst (filterChangeIndication w') = Ok FILTER_OK /\
     fst (getRotationSpeed w') = Ok (JNum 50)).
Proof.
  cbn zeta.
  assert (Hc : construct config w = pollStatus (with_acc w (accessory_of_config config)))
    by reflexivity.
  split; [reflexivity|]. split; [reflexivity|]. split.
  - rewrite Hc.
    destruct (pollStatus_first_request (with_acc w (accessory_of_config config)))
      as [l Hl].
    exists l. exact Hl.
  - intros e He. rewrite Hc.
    pose proof (callApi_keeps_state "/amosFragrance.do" [("checkPermissions", JNum 0)] 0
                  (with_acc w (accessory_of_config config))) as (Hon & Hoil & Htc & _).
    unfold pollStatus, try_catch, bind.
    destruct (callApi _ _ 0 _) as [[j|e'|] w1]; simpl in *; try discriminate.
    unfold getOn, getOilLevel, filterChangeIndication, getRotationSpeed, bind, gets, ret.
    simpl. rewrite Hon, Hoil, Htc. simpl.
    split_refl.
Qed.

Lemma construct_initial_state_witness :
  let cfg := [("nid", JStr "5566"); ("token", JStr "t"); ("uid", JStr "1001");
              ("sessionId", JStr "s42"); ("username", JStr "me@example.com")] in
  let w := Examples.world [Examples.server_error] in
  appid (accessory_of_config cfg) = JStr "19987617" /\
  fst (callApi "/amosFragrance.do" [("checkPermissions", JNum 0)] 0
         (with_acc w (accessory_of_config cfg))) = Throw (EHttp 500) /\
  fst (getRotationSpeed (snd (construct cfg w))) = Ok (JNum 50).
Proof.
  cbn zeta.
  destruct (construct_initial_state
              [("nid", JStr "5566"); ("token", JStr "t"); ("uid", JStr "1001");
               ("sessionId", JStr "s42"); ("username", JStr "me@example.com")]
              (Examples.world [Examples.server_error]))
    as (Ha & _ & _ & Hf).
  split; [exact Ha|]. split; [reflexivity|].
  exact (proj2 (proj2 (proj2 (proj2 (Hf (EHttp 500) eq_refl))))).
Defined.

(** ** Auth client: cookies and the form bodies it sends *)

(** *** String lemmas *)

Lemma append_nil_r (s : string) : (s ++ EmptyString)%string = s.
Proof. induction s as [|c s IH]; simpl; [reflexivity|rewrite IH; reflexivity]. Qed.





Lemma includes_cons_false (c : ascii) (v k : string) :
  Auth.includes (String c v) k = false ->
  String.prefix k (String c v) = false /\ Auth.includes v k = false.
Proof. cbn [Auth.includes]. intros H. apply Bool.orb_false_iff in H. exact H. Qed.


Lemma seg0_cons (c : ascii) (s sep : string) :
  Auth.seg0 (String c s) sep =
  if String.prefix sep (String c s) then EmptyString else String c (Auth.seg0 s sep).
Proof. reflexivity. Qed.


Lemma prefix_char (a c : ascii) (s : string) :
  String.prefix (String a EmptyString) (String c s) = if ascii_dec a c then true else false.
Proof. simpl. destruct (ascii_dec a c); [destruct s|]; reflexivity. Qed.

(** Cutting at a one-character separator. *)
Lemma seg0_app_char (a : ascii) (v y : string) :
  Auth.includes v (String a EmptyString) = false ->
  Auth.seg0 (v ++ y) (String a EmptyString) = (v ++ Auth.seg0 y (String a EmptyString))%string.
Proof.
  intros Hv. induction v as [|c v IH]; [reflexivity|].
  apply includes_cons_false in Hv as [Hp Hv].
  change (String c v ++ y)%string with (String c (v ++ y)).
  rewrite seg0_cons, prefix_char. rewrite prefix_char in Hp.
  destruct (ascii_dec a c); [discriminate|].
  rewrite (IH Hv). reflexivity.
Qed.

Lemma after_first_cons (c : ascii) (s sep : string) :
  Auth.after_first (String c s) sep =
  if String.prefix sep (String c s)
  then Some (Auth.str_drop (String.length sep) (String c s))
  else Auth.after_first s sep.
Proof. reflexivity. Qed.

Lemma after_first_char (a : ascii) (x y : string) :
  Auth.includes x (String a EmptyString) = false ->
  Auth.after_first (x ++ String a y) (String a EmptyString) = Some y.
Proof.
  intros Hx. induction x as [|c x IH].
  - simpl. destruct (ascii_dec a a); [destruct y; reflexivity|contradiction].
  - apply includes_cons_false in Hx as [Hp Hx].
    change (String c x ++ String a y)%string with (String c (x ++ String a y)).
    rewrite after_first_cons, prefix_char. rewrite prefix_char in Hp.
    destruct (ascii_dec a c); [discriminate|]. exact (IH Hx).
Qed.

Lemma seg0_char_here (a : ascii) (y : string) :
  Auth.seg0 (String a y) (String a EmptyString) = EmptyString.
Proof. rewrite seg0_cons, prefix_char. destruct (ascii_dec a a); [reflexivity|contradiction]. Qed.







Lemma qs_escape_char_no_amp (c : ascii) :
  Auth.includes (Auth.qs_escape_char c) "&" = false /\
  Auth.includes (Auth.qs_escape_char c) "=" = false.
Proof.
  destruct c as [[|] [|] [|] [|] [|] [|] [|] [|]]; split; reflexivity.
Qed.

Lemma includes_char_app (a : ascii) (x y : string) :
  Auth.includes (x ++ y) (String a EmptyString) =
  Auth.includes x (String a EmptyString) || Auth.includes y (String a EmptyString).
Proof.
  induction x as [|c x IH]; [reflexivity|].
  change (String c x ++ y)%string with (String c (x ++ y)).
  cbn [Auth.includes]. rewrite !prefix_char, IH, Bool.orb_assoc. reflexivity.
Qed.

Lemma qs_escape_no_sep (s : string) :
  Auth.includes (Auth.qs_escape s) "&" = false /\
  Auth.includes (Auth.qs_escape s) "=" = false.
Proof.
  induction s as [|c s [IH1 IH2]]; [split; reflexivity|].
  simpl Auth.qs_escape. destruct (qs_escape_char_no_amp c) as [H1 H2].
  rewrite !includes_char_app, H1, H2, IH1, IH2. split; reflexivity.
Qed.

Lemma form_unescape_escape_char (c : ascii) (r : string) :
  Auth.form_unescape (Auth.qs_escape_char c ++ r) = String c (Auth.form_unescape r).
Proof.
  destruct c as [[|] [|] [|] [|] [|] [|] [|] [|]]; reflexivity.
Qed.

Lemma form_unescape_qs_escape (s : string) :
  Auth.form_unescape (Auth.qs_escape s) = s.
Proof.
  induction s as [|c s IH]; [reflexivity|].
  simpl Auth.qs_escape. rewrite form_unescape_escape_char, IH. reflexivity.
Qed.

Lemma split_char_app (x y : string) :
  Auth.includes x "&" = false ->
  Auth.split_char "&" (x ++ String "&" y) = x :: Auth.split_char "&" y.
Proof.
  intros Hx. induction x as [|c x IH]; [reflexivity|].
  apply includes_cons_false in Hx as [Hp Hx]. rewrite prefix_char in Hp.
  change (String c x ++ String "&" y)%string with (String c (x ++ String "&" y)).
  simpl Auth.split_char. rewrite (IH Hx).
  destruct (ascii_dec "&" c) as [|n]; [discriminate|].
  replace (Ascii.eqb c "&") with false; [reflexivity|].
  symmetry. apply Ascii.eqb_neq. intros E. apply n. symmetry. exact E.
Qed.

Lemma split_char_none (x : string) :
  Auth.includes x "&" = false -> Auth.split_char "&" x = [x].
Proof.
  intros Hx. induction x as [|c x IH]; [reflexivity|].
  apply includes_cons_false in Hx as [Hp Hx]. rewrite prefix_char in Hp.
  simpl Auth.split_char. rewrite (IH Hx).
  destruct (ascii_dec "&" c) as [|n]; [discriminate|].
  replace (Ascii.eqb c "&") with false; [reflexivity|].
  symmetry. apply Ascii.eqb_neq. intros E. apply n. symmetry. exact E.
Qed.

Lemma split_concat_sep (l : list string) :
  l <> [] -> Forall (fun x => Auth.includes x "&" = false) l ->
  Auth.split_char "&" (concat_sep "&" l) = l.
Proof.
  intros Hne Hl. induction Hl as [|x l Hx Hl IH]; [contradiction|].
  destruct l as [|y l].
  - apply split_char_none. exact Hx.
  - change (concat_sep "&" (x :: y :: l)) with (x ++ String "&" (concat_sep "&" (y :: l)))%string.
    rewrite (split_char_app _ _ Hx), IH; [reflexivity|discriminate].
Qed.

Lemma string_app_assoc (x y z : string) : ((x ++ y) ++ z)%string = (x ++ y ++ z)%string.
Proof. induction x as [|c x IH]; simpl; [reflexivity|rewrite IH; reflexivity]. Qed.

Lemma qs_stringify_no_arrays (o : obj) :
  Forall (fun kv => forall xs, snd kv <> JArr xs) o ->
  Auth.qs_stringify o =
  concat_sep "&" (map (fun kv => Auth.qs_escape (fst kv) ++ String "="
                                   (Auth.qs_escape (Auth.qs_primitive (snd kv)))) o)%string.
Proof.
  intros Ho. unfold Auth.qs_stringify. f_equal.
  induction Ho as [|[k v] o Hkv _ IH]; [reflexivity|].
  match goal with |- flat_map ?f _ = _ =>
    change (flat_map f ((k, v) :: o)) with (f (k, v) ++ flat_map f o)%list end.
  rewrite IH. simpl in Hkv.
  destruct v; try (exfalso; eapply Hkv; reflexivity);
    simpl; rewrite string_app_assoc; reflexivity.
Qed.

Lemma form_decode_field (k v : string) :
  Auth.includes k "&" = false -> Auth.includes k "=" = false ->
  (Auth.form_unescape (Auth.seg0 (k ++ String "=" v) "="),
   Auth.form_unescape (match Auth.after_first (k ++ String "=" v) "=" with
                       | Some x => x | None => EmptyString end)) =
  (Auth.form_unescape k, Auth.form_unescape v).
Proof.
  intros _ Hk. rewrite (seg0_app_char "=" k _ Hk), seg0_char_here, append_nil_r.
  rewrite (after_first_char "=" k v Hk). reflexivity.
Qed.

Lemma form_decode_stringify (o : obj) :
  o <> [] -> Forall (fun kv => forall xs, snd kv <> JArr xs) o ->
  Auth.form_decode (Auth.qs_stringify o) =
  map (fun kv => (fst kv, Auth.qs_primitive (snd kv))) o.
Proof.
  intros Hne Ho. rewrite (qs_stringify_no_arrays o Ho). unfold Auth.form_decode.
  rewrite split_concat_sep.
  - rewrite map_map. apply map_ext. intros [k v]. simpl.
    destruct (qs_escape_no_sep k) as [H1 H2].
    rewrite (form_decode_field _ _ H1 H2), !form_unescape_qs_escape. reflexivity.
  - destruct o; [contradiction|discriminate].
  - apply Forall_map, Forall_forall. intros [k v] _.
    destruct (qs_escape_no_sep k) as [H1 _].
    destruct (qs_escape_no_sep (Auth.qs_primitive v)) as [H3 _].
    cbn [fst snd]. rewrite includes_char_app, H1. cbn [Auth.includes].
    rewrite prefix_char, H3. reflexivity.
Qed.

(** The login body [querystring.stringify] builds decodes back to the four
    fields platform=1, areaCode=0, username and password, in this order,
    whatever bytes the username and password contain ('&', '=', '%', '+' and
    spaces included); a non-string value is sent as its primitive string,
    and [null] or [undefined] as the empty string. *)
Theorem login_body_decode (username password : jsval) :
  (forall xs, username <> JArr xs) -> (forall xs, password <> JArr xs) ->
  Auth.form_decode (Auth.login_body username password) =
  [("platform", "1"); ("areaCode", "0");
   ("username", Auth.qs_primitive username); ("password", Auth.qs_primitive password)].
Proof.
  intros Hu Hp. unfold Auth.login_body.
  rewrite form_decode_stringify; [reflexivity|discriminate|].
  repeat constructor; cbn [snd]; intros xs; [discriminate|discriminate|apply Hu|apply Hp].
Qed.

Lemma login_body_decode_witness :
  Auth.form_decode (Auth.login_body (JStr "a b&c=d@e.com") JUndef) =
  [("platform", "1"); ("areaCode", "0"); ("username", "a b&c=d@e.com");
   ("password", EmptyString)].
Proof.
  exact (login_body_decode (JStr "a b&c=d@e.com") JUndef
           (fun xs => ltac:(discriminate)) (fun xs => ltac:(discriminate))).
Defined.

(** The device-list request sends, as its Cookie header, the name=value
    part of each Set-Cookie (what precedes the first ';'), joined by '; ' in
    the order received; its query decodes to online=2, the uid (whatever
    bytes it contains), draw=1, start=0 and length=10. *)
Theorem fetch_request_shape (parts : list (string * string)) (uid : string) :
  Forall (fun p => Auth.includes (fst p) ";" = false /\
                   (snd p = EmptyString \/ exists t, snd p = String ";" t)) parts ->
  let req := Auth.fetch_request (map (fun p => fst p ++ snd p)%string parts) uid in
  Auth.dr_cookie req = concat_sep "; " (map fst parts) /\
  exists q, Auth.dr_path req = ("/admin/amos/searchForWeb.do?" ++ q)%string /\
    Auth.form_decode q =
    [("online", "2"); ("uid", uid); ("draw", "1"); ("start", "0"); ("length", "10")].
Proof.
  intros Hp. cbn zeta. split.
  - simpl Auth.dr_cookie. f_equal. rewrite map_map. apply map_ext_Forall.
    refine (Forall_impl _ _ Hp). intros [nv t] [Hnv Ht]. cbn [fst snd] in *.
    rewrite (seg0_app_char ";" nv t Hnv).
    destruct Ht as [->|[t' ->]]; [|rewrite seg0_char_here]; apply append_nil_r.
  - eexists. split; [reflexivity|].
    rewrite form_decode_stringify; [reflexivity|discriminate|].
    repeat constructor; cbn [snd]; intros xs; discriminate.
Qed.


Lemma fetch_request_shape_witness :
  Auth.dr_cookie (Auth.fetch_request ["uid=1001; Path=/"; "token=abc"] "1001") =
  "uid=1001; token=abc".
Proof.
  destruct (fetch_request_shape [("uid=1001", "; Path=/"); ("token=abc", EmptyString)] "1001"
              (Forall_cons ("uid=1001", "; Path=/") (conj eq_refl (or_intror (ex_intro _ " Path=/" eq_refl)))
                 (Forall_cons ("token=abc", EmptyString) (conj eq_refl (or_introl eq_refl)) (Forall_nil _))))
    as [H _].
  exact H.
Defined.


(** ** Auth client: [getCredentials] and the platform's [_executeRefresh] *)

Lemma login_ok_cookies (code : Z) (cookies : list string) (body : string) :
  200 <= code < 400 ->
  Auth.login (inl (Auth.mkLoginResponse code (Some cookies) body)) = inl (Some cookies).
Proof.
  intros [H1 H2]. simpl.
  replace (200 <=? code) with true by (symmetry; apply Z.leb_le; lia).
  replace (code <? 400) with true by (symmetry; apply Z.ltb_lt; lia).
  reflexivity.
Qed.

(** [getCredentials] rejects without requesting the device list when the
    login fails: with the request's error, with 'HTTP <status>' for a status
    outside [200, 400), with 'Invalid Credentials' or 'Login failed: No
    cookies received' when no Set-Cookie header came back (depending on
    whether the body mentions AuthenticationException), and with 'Login
    success but UID not found in cookies' when no cookie carries a
    non-empty uid. *)
Theorem getCredentials_login_failures (lr : Auth.LoginResponse + string) (fr : body + string) :
  (forall msg, lr = inr msg -> Auth.getCredentials lr fr = (inr msg, [])) /\
  (forall code sc b, lr = inl (Auth.mkLoginResponse code sc b) -> ~ (200 <= code < 400) ->
     Auth.getCredentials lr fr = (inr ("HTTP " ++ Z_to_dec code), [])) /\
  (forall code b, lr = inl (Auth.mkLoginResponse code None b) -> 200 <= code < 400 ->
     Auth.getCredentials lr fr =
       (inr (if Auth.includes b "AuthenticationException" then "Invalid Credentials"
             else "Login failed: No cookies received"), [])) /\
  (forall code cookies b, lr = inl (Auth.mkLoginResponse code (Some cookies) b) ->
     200 <= code < 400 ->
     Auth.extractUid cookies = None \/ Auth.extractUid cookies = Some EmptyString ->
     Auth.getCredentials lr fr = (inr "Login success but UID not found in cookies", [])).
Proof.
  split; [|split; [|split]].
  - intros msg ->. reflexivity.
  - intros code sc b -> Hc. unfold Auth.getCredentials, Auth.login. simpl.
    replace ((200 <=? code) && (code <? 400)) with false; [reflexivity|].
    symmetry. apply Bool.not_true_iff_false. intros H.
    apply andb_prop in H as [H1 H2]. apply Z.leb_le in H1. apply Z.ltb_lt in H2.
    apply Hc. lia.
  - intros code b -> [H1 H2]. unfold Auth.getCredentials, Auth.login. simpl.
    replace (200 <=? code) with true by (symmetry; apply Z.leb_le; lia).
    replace (code <? 400) with true by (symmetry; apply Z.ltb_lt; lia).
    simpl. destruct (Auth.includes b "AuthenticationException"); reflexivity.
  - intros code cookies b -> Hc Hu. unfold Auth.getCredentials.
    rewrite (login_ok_cookies _ _ _ Hc).
    destruct Hu as [-> | ->]; reflexivity.
Qed.

Lemma getCredentials_login_failures_witness :
  Auth.getCredentials
    (inl (Auth.mkLoginResponse 200 None "AuthenticationException: bad password"))
    (inr "unused") = (inr "Invalid Credentials", []).
Proof.
  destruct (getCredentials_login_failures
              (inl (Auth.mkLoginResponse 200 None "AuthenticationException: bad password"))
              (inr "unused")) as (_ & _ & H & _).
  exact (H 200 "AuthenticationException: bad password" eq_refl ltac:(lia)).
Defined.

Lemma prop_data_arr_truthy (json : jsval) (xs : list jsval) :
  prop json "data" = JArr xs -> js_truthy json = true.
Proof. destruct json; simpl; try discriminate; reflexivity. Qed.

Lemma prop_data_obj_truthy (json : jsval) (fs : obj) :
  prop json "data" = JObj fs -> js_truthy json = true.
Proof. destruct json; simpl; try discriminate; reflexivity. Qed.

Lemma devices_nonempty (d : jsval) (ds : list jsval) :
  js_strict_eq (prop (JArr (d :: ds)) "length") (JNum 0) = false /\
  prop (JArr (d :: ds)) "0" = d.
Proof.
  split; [|reflexivity]. unfold prop, js_get. simpl.
  apply Bool.not_true_iff_false. intros Q. apply Qeq_bool_iff in Q.
  unfold Qeq in Q. simpl in Q. lia.
Qed.

Lemma getCredentials_after_uid (code : Z) (cookies : list string) (b : string)
    (uid : string) (fr : body + string) :
  200 <= code < 400 ->
  Auth.extractUid cookies = Some uid -> uid <> EmptyString ->
  Auth.getCredentials (inl (Auth.mkLoginResponse code (Some cookies) b)) fr =
    let req := Auth.fetch_request cookies uid in
    match Auth.fetchDevices_result fr with
    | inr msg => (inr msg, [req])
    | inl devices =>
        if negb (js_truthy devices) || js_strict_eq (prop devices "length") (JNum 0)
        then (inl JNull, [req])
        else match js_get (prop devices "0") "nid" with
             | None => (inr (type_error_msg (prop devices "0") "nid"), [req])
             | Some pnid =>
                 (inl (JObj [("nid", pnid); ("token", Auth.opt_str (Auth.extractToken cookies));
                             ("uid", JStr uid);
                             ("sessionId", Auth.opt_str (Auth.extractSessionId cookies));
                             ("devices", devices)]), [req])
             end
    end.
Proof.
  intros Hc Hu Hne. unfold Auth.getCredentials. rewrite (login_ok_cookies _ _ _ Hc), Hu.
  replace (String.eqb uid EmptyString) with false
    by (symmetry; apply String.eqb_neq; exact Hne).
  reflexivity.
Qed.

(** Once the login gives cookies with a non-empty uid, [getCredentials]
    makes exactly one device-list request.  A request error is passed on, a
    non-JSON answer rejects with 'Failed to parse device list JSON', an
    answer without data or with an empty list resolves with null, and a
    non-empty list resolves with the first device's nid, the token, uid and
    session id of the cookies (null when missing) and the whole list.  A
    list whose first entry is null, or a data object without length and
    entry 0, rejects with the TypeError of reading nid. *)
Theorem getCredentials_device_list (code : Z) (cookies : list string) (b : string)
    (uid : string) (fr : body + string) :
  let lr := inl (Auth.mkLoginResponse code (Some cookies) b) in
  200 <= code < 400 ->
  Auth.extractUid cookies = Some uid -> uid <> EmptyString ->
  let r := Auth.getCredentials lr fr in
  snd r = [Auth.fetch_request cookies uid] /\
  (forall msg, fr = inr msg -> fst r = inr msg) /\
  (forall t, fr = inl (BText t) -> fst r = inr "Failed to parse device list JSON") /\
  (forall json, fr = inl (BJson json) ->
     js_truthy (prop json "data") = false \/ prop json "data" = JArr [] ->
     fst r = inl JNull) /\
  (forall json d ds n, fr = inl (BJson json) -> prop json "data" = JArr (d :: ds) ->
     js_get d "nid" = Some n ->
     fst r = inl (JObj [("nid", n); ("token", Auth.opt_str (Auth.extractToken cookies));
                        ("uid", JStr uid);
                        ("sessionId", Auth.opt_str (Auth.extractSessionId cookies));
                        ("devices", JArr (d :: ds))])) /\
  (forall json ds, fr = inl (BJson json) -> prop json "data" = JArr (JNull :: ds) ->
     fst r = inr "Cannot read properties of null (reading 'nid')") /\
  (forall json fs, fr = inl (BJson json) -> prop json "data" = JObj fs ->
     assoc_get "length" fs = None -> assoc_get "0" fs = None ->
     fst r = inr "Cannot read properties of undefined (reading 'nid')").
Proof.
  cbn zeta. intros Hc Hu Hne.
  rewrite (getCredentials_after_uid code cookies b uid fr Hc Hu Hne).
  cbn zeta. split; [|split; [|split; [|split; [|split; [|split]]]]].
  - destruct (Auth.fetchDevices_result fr) as [devices|msg]; [|reflexivity].
    destruct (_ || _); [reflexivity|].
    destruct (js_get _ "nid"); reflexivity.
  - intros msg ->. reflexivity.
  - intros t ->. reflexivity.
  - intros json -> Hd. unfold Auth.fetchDevices_result.
    destruct Hd as [Hd | Hd].
    + rewrite Hd, Bool.andb_false_r. reflexivity.
    + rewrite Hd, (prop_data_arr_truthy json [] Hd). reflexivity.
  - intros json d ds n -> Hd Hn. unfold Auth.fetchDevices_result.
    rewrite Hd, (prop_data_arr_truthy json _ Hd). cbn [andb js_truthy].
    destruct (devices_nonempty d ds) as [H1 H2]. rewrite H1, H2, Hn. reflexivity.
  - intros json ds -> Hd. unfold Auth.fetchDevices_result.
    rewrite Hd, (prop_data_arr_truthy json _ Hd). cbn [andb js_truthy].
    destruct (devices_nonempty JNull ds) as [H1 H2]. rewrite H1, H2. reflexivity.
  - intros json fs -> Hd Hl H0. unfold Auth.fetchDevices_result.
    rewrite Hd, (prop_data_obj_truthy json _ Hd). cbn [andb js_truthy].
    replace (prop (JObj fs) "length") with JUndef
      by (unfold prop, js_get; rewrite Hl; reflexivity).
    replace (prop (JObj fs) "0") with JUndef
      by (unfold prop, js_get; rewrite H0; reflexivity).
    reflexivity.
Qed.

Lemma getCredentials_devices_ok (code : Z) (cookies : list string) (b uid : string)
    (json d : jsval) (ds : list jsval) (n : jsval) :
  200 <= code < 400 -> Auth.extractUid cookies = Some uid -> uid <> EmptyString ->
  prop json "data" = JArr (d :: ds) -> js_get d "nid" = Some n ->
  fst (Auth.getCredentials (inl (Auth.mkLoginResponse code (Some cookies) b))
         (inl (BJson json))) =
  inl (JObj [("nid", n); ("token", Auth.opt_str (Auth.extractToken cookies));
             ("uid", JStr uid);
             ("sessionId", Auth.opt_str (Auth.extractSessionId cookies));
             ("devices", JArr (d :: ds))]).
Proof.
  intros Hc Hu Hne Hd Hn.
  rewrite (getCredentials_after_uid code cookies b uid _ Hc Hu Hne). cbn zeta.
  unfold Auth.fetchDevices_result.
  rewrite Hd, (prop_data_arr_truthy json _ Hd). cbn [andb js_truthy].
  destruct (devices_nonempty d ds) as [H1 H2]. rewrite H1, H2, Hn. reflexivity.
Qed.

Lemma getCredentials_no_devices (code : Z) (cookies : list string) (b uid : string)
    (json : jsval) :
  200 <= code < 400 -> Auth.extractUid cookies = Some uid -> uid <> EmptyString ->
  prop json "data" = JArr [] ->
  fst (Auth.getCredentials (inl (Auth.mkLoginResponse code (Some cookies) b))
         (inl (BJson json))) = inl JNull.
Proof.
  intros Hc Hu Hne Hd.
  rewrite (getCredentials_after_uid code cookies b uid _ Hc Hu Hne). cbn zeta.
  unfold Auth.fetchDevices_result.
  rewrite Hd, (prop_data_arr_truthy json [] Hd). reflexivity.
Qed.

(** [_executeRefresh] rejects with 'Cannot refresh session: No
    Email/Password configured.' whatever the server would answer when the
    e-mail or password is missing.  Otherwise, after a successful login
    and a non-empty device list, it resolves with the token, uid and session
    id of the cookies (a missing token cookie gives a null token, not a
    rejection); when the account has no device it rejects with the
    TypeError of reading token on null. *)
Theorem executeRefresh_outcomes (config : obj) (code : Z) (cookies : list string)
    (b uid : string) (fr : body + string) :
  let c := JObj config in
  let lr := inl (Auth.mkLoginResponse code (Some cookies) b) in
  (js_truthy (prop c "email") = false \/ js_truthy (prop c "password") = false ->
   forall lr' fr', Platform.executeRefresh config lr' fr' = inr Platform.no_credentials_msg) /\
  (js_truthy (prop c "email") = true -> js_truthy (prop c "password") = true ->
   200 <= code < 400 -> Auth.extractUid cookies = Some uid -> uid <> EmptyString ->
   (forall json d ds n, fr = inl (BJson json) -> prop json "data" = JArr (d :: ds) ->
      js_get d "nid" = Some n ->
      Platform.executeRefresh config lr fr =
        inl (mkCreds (Auth.opt_str (Auth.extractToken cookies)) (JStr uid)
                     (Auth.opt_str (Auth.extractSessionId cookies)))) /\
   (forall json, fr = inl (BJson json) -> prop json "data" = JArr [] ->
      Platform.executeRefresh config lr fr =
        inr "Cannot read properties of null (reading 'token')")).
Proof.
  cbn zeta. split.
  - intros H lr' fr'. unfold Platform.executeRefresh.
    destruct H as [H|H]; rewrite H; [reflexivity|].
    rewrite Bool.orb_true_r. reflexivity.
  - intros He Hp Hc Hu Hne. unfold Platform.executeRefresh. rewrite He, Hp. simpl negb.
    cbn [orb]. split.
    + intros json d ds n -> Hd Hn.
      rewrite (getCredentials_devices_ok code cookies b uid json d ds n Hc Hu Hne Hd Hn).
      reflexivity.
    + intros json -> Hd.
      rewrite (getCredentials_no_devices code cookies b uid json Hc Hu Hne Hd).
      reflexivity.
Qed.

(** After launching, nothing is registered when the e-mail or password is
    missing, when [getCredentials] rejects, when the account has no device,
    or when the login set no token cookie (reading [substring] of a null
    token throws and is caught).  With a token, the devices of the list are
    handed to [discoverDevices] with the token, uid and session id of the
    cookies. *)
Theorem didFinishLaunching_outcomes (gen : string -> string) (config : obj)
    (lr : Auth.LoginResponse + string) (fr : body + string) (r : Launch.Registry) :
  let c := JObj config in
  (js_truthy (prop c "email") = false \/ js_truthy (prop c "password") = false ->
   Launch.didFinishLaunching gen config lr fr r = r) /\
  (forall msg, fst (Auth.getCredentials lr fr) = inr msg ->
   Launch.didFinishLaunching gen config lr fr r = r) /\
  (forall code cookies b uid json, lr = inl (Auth.mkLoginResponse code (Some cookies) b) ->
   200 <= code < 400 -> Auth.extractUid cookies = Some uid -> uid <> EmptyString ->
   fr = inl (BJson json) ->
   (prop json "data" = JArr [] -> Launch.didFinishLaunching gen config lr fr r = r) /\
   (forall d ds n, prop json "data" = JArr (d :: ds) -> js_get d "nid" = Some n ->
      (Auth.extractToken cookies = None ->
         Launch.didFinishLaunching gen config lr fr r = r) /\
      (forall tok, Auth.extractToken cookies = Some tok ->
         js_truthy (prop c "email") = true -> js_truthy (prop c "password") = true ->
         Launch.didFinishLaunching gen config lr fr r =
         fst (Launch.discoverDevices gen config (JArr (d :: ds))
                (mkCreds (JStr tok) (JStr uid)
                         (Auth.opt_str (Auth.extractSessionId cookies))) r)))).
Proof.
  cbn zeta. split; [|split].
  - intros H. unfold Launch.didFinishLaunching.
    destruct H as [H|H]; rewrite H; [reflexivity|]. rewrite Bool.andb_false_r. reflexivity.
  - intros msg H. unfold Launch.didFinishLaunching, Launch.autoDiscover. rewrite H.
    destruct (_ && _); reflexivity.
  - intros code cookies b uid json -> Hc Hu Hne ->. split.
    + intros Hd. unfold Launch.didFinishLaunching, Launch.autoDiscover.
      rewrite (getCredentials_no_devices code cookies b uid json Hc Hu Hne Hd).
      destruct (_ && _); reflexivity.
    + intros d ds n Hd Hn.
      unfold Launch.didFinishLaunching, Launch.autoDiscover.
      rewrite (getCredentials_devices_ok code cookies b uid json d ds n Hc Hu Hne Hd Hn).
      split.
      * intros Ht. rewrite Ht. destruct (_ && _); reflexivity.
      * intros tok Ht He Hp. rewrite Ht, He, Hp. reflexivity.
Qed.

Lemma getCredentials_device_list_witness :
  let r := Auth.getCredentials Examples.login_ok Examples.devices_reply in
  snd r = [Auth.fetch_request Examples.cookies_ok "1001"] /\
  fst r = inl (JObj [("nid", JNum 5566); ("token", JStr "abcdef0123456789");
                     ("uid", JStr "1001"); ("sessionId", JStr "s42");
                     ("devices", JArr [Examples.device1])]).
Proof.
  destruct (getCredentials_device_list 200 Examples.cookies_ok EmptyString "1001"
              Examples.devices_reply ltac:(lia) eq_refl ltac:(discriminate))
    as (H1 & _ & _ & _ & H5 & _).
  split; [exact H1|].
  exact (H5 _ Examples.device1 [] (JNum 5566) eq_refl eq_refl eq_refl).
Defined.

Lemma executeRefresh_outcomes_witness :
  Platform.executeRefresh Examples.platform_config Examples.login_no_token
    Examples.devices_reply = inl (mkCreds JNull (JStr "1001") JNull).
Proof.
  destruct (executeRefresh_outcomes Examples.platform_config 200
              ["uid=1001; Path=/"; "SESSIONID=s42; Path=/"] EmptyString "1001"
              Examples.devices_reply) as [_ H].
  destruct (H eq_refl eq_refl ltac:(lia) eq_refl ltac:(discriminate)) as [H1 _].
  exact (H1 _ Examples.device1 [] (JNum 5566) eq_refl eq_refl eq_refl).
Defined.

Lemma didFinishLaunching_outcomes_witness :
  Launch.didFinishLaunching Examples.gen Examples.platform_config Examples.login_no_token
    Examples.devices_reply Examples.reg0 = Examples.reg0.
Proof.
  destruct (didFinishLaunching_outcomes Examples.gen Examples.platform_config
              Examples.login_no_token Examples.devices_reply Examples.reg0)
    as (_ & _ & H).
  destruct (H 200 ["uid=1001; Path=/"; "SESSIONID=s42; Path=/"] EmptyString "1001" _
              eq_refl ltac:(lia) eq_refl ltac:(discriminate) eq_refl) as [_ H2].
  exact (proj1 (H2 Examples.device1 [] (JNum 5566) eq_refl eq_refl) eq_refl).
Defined.


(** ** Discovery and registration *)

Lemma device_config_fields (config : obj) (session : Creds) (d : jsval) :
  d <> JUndef -> d <> JNull -> prop d "nid" <> JUndef -> prop d "nid" <> JNull ->
  exists dc, Launch.device_config config session d = inl dc /\
    prop (JObj dc) "token" = c_token session /\
    prop (JObj dc) "nid" = JStr (js_to_string (prop d "nid")) /\
    prop (JObj dc) "uid" = c_uid session /\
    prop (JObj dc) "sessionId" = c_sessionId session.
Proof.
  intros H1 H2 H3 H4. unfold Launch.device_config.
  destruct d; try contradiction;
    destruct (prop _ "nid"); try contradiction;
    eexists; (split; [reflexivity|]); repeat split; reflexivity.
Qed.

Lemma addAccessory_built (gen : string -> string) (dc : obj) (r : Launch.Registry) :
  js_truthy (prop (JObj dc) "token") = true -> js_truthy (prop (JObj dc) "nid") = true ->
  Launch.built (Launch.addAccessory gen dc r) =
  (Launch.built r ++ [(gen (js_to_string (prop (JObj dc) "nid")), dc)])%list.
Proof.
  intros Ht Hn. unfold Launch.addAccessory. rewrite Ht, Hn. simpl.
  destruct (find _ _) as [[u dn]|]; [destruct (negb _)|]; reflexivity.
Qed.

Lemma forEach_device_app (gen : string -> string) (config : obj) (session : Creds)
    (ds1 ds2 : list jsval) (r : Launch.Registry) :
  Launch.forEach_device gen config session (ds1 ++ ds2) r =
  match Launch.forEach_device gen config session ds1 r with
  | (r1, None) => Launch.forEach_device gen config session ds2 r1
  | (r1, Some e) => (r1, Some e)
  end.
Proof.
  revert r; induction ds1 as [|d ds1 IH]; intros r; [reflexivity|].
  simpl. destruct (Launch.device_config config session d); [apply IH|reflexivity].
Qed.

Lemma forEach_device_good (gen : string -> string) (config : obj) (session : Creds)
    (ds : list jsval) (r : Launch.Registry) :
  Forall (fun d => d <> JUndef /\ d <> JNull /\ prop d "nid" <> JUndef /\
                   prop d "nid" <> JNull /\ js_to_string (prop d "nid") <> EmptyString) ds ->
  js_truthy (c_token session) = true ->
  let res := Launch.forEach_device gen config session ds r in
  snd res = None /\
  map fst (Launch.built (fst res)) =
    (map fst (Launch.built r) ++ map (fun d => gen (js_to_string (prop d "nid"))) ds)%list /\
  (forall u dc, In (u, dc) (Launch.built (fst res)) ->
     In (u, dc) (Launch.built r) \/
     (prop (JObj dc) "token" = c_token session /\ prop (JObj dc) "uid" = c_uid session /\
      prop (JObj dc) "sessionId" = c_sessionId session)).
Proof.
  intros Hds Ht. cbn zeta. revert r.
  induction Hds as [|d ds [H1 [H2 [H3 [H4 H5]]]] _ IH]; intros r.
  - simpl. rewrite app_nil_r. split; [reflexivity|]. split; [reflexivity|]. auto.
  - destruct (device_config_fields config session d H1 H2 H3 H4)
      as (dc & Edc & Etok & Enid & Euid & Esid).
    simpl. rewrite Edc.
    assert (Hb : Launch.built (Launch.addAccessory gen dc r) =
                 (Launch.built r ++ [(gen (js_to_string (prop d "nid")), dc)])%list).
    { rewrite addAccessory_built; [rewrite Enid; reflexivity|rewrite Etok; exact Ht|].
      rewrite Enid. simpl. destruct (js_to_string (prop d "nid")); [contradiction|reflexivity]. }
    destruct (IH (Launch.addAccessory gen dc r)) as (Hn & Hm & Hi).
    split; [exact Hn|]. split.
    + rewrite Hm, Hb, map_app, <- app_assoc. reflexivity.
    + intros u c Hin. destruct (Hi u c Hin) as [Hin'|Hs]; [|right; exact Hs].
      rewrite Hb in Hin'. apply in_app_or in Hin' as [Hin'|[E|[]]]; [left; exact Hin'|].
      injection E as <- <-. right. rewrite Etok, Euid, Esid. split_refl.
Qed.

Lemma length_gt_zero (d : jsval) (ds : list jsval) :
  js_truthy (JArr (d :: ds)) && Launch.js_gt_const (prop (JArr (d :: ds)) "length") 0 = true.
Proof.
  reflexivity.
Qed.

(** [discoverDevices] does nothing for an empty list.  For a non-empty list
    of devices each with a nid that is neither null nor undefined (nor
    stringifying to the empty string) and a truthy session token, it throws
    nothing and builds one accessory per device, in list order, under the
    UUID generated from the nid's string; every accessory it builds carries
    the session's token, uid and session id. *)
Theorem discoverDevices_builds_all (gen : string -> string) (config : obj) (session : Creds)
    (ds : list jsval) (r : Launch.Registry) :
  Launch.discoverDevices gen config (JArr []) session r = (r, None) /\
  (ds <> [] ->
   Forall (fun d => d <> JUndef /\ d <> JNull /\ prop d "nid" <> JUndef /\
                    prop d "nid" <> JNull /\ js_to_string (prop d "nid") <> EmptyString) ds ->
   js_truthy (c_token session) = true ->
   let res := Launch.discoverDevices gen config (JArr ds) session r in
   snd res = None /\
   map fst (Launch.built (fst res)) =
     (map fst (Launch.built r) ++ map (fun d => gen (js_to_string (prop d "nid"))) ds)%list /\
   (forall u dc, In (u, dc) (Launch.built (fst res)) ->
      In (u, dc) (Launch.built r) \/
      (prop (JObj dc) "token" = c_token session /\ prop (JObj dc) "uid" = c_uid session /\
       prop (JObj dc) "sessionId" = c_sessionId session))).
Proof.
  split; [reflexivity|]. intros Hne Hds Ht. cbn zeta.
  destruct ds as [|d ds]; [contradiction|].
  unfold Launch.discoverDevices. rewrite length_gt_zero.
  exact (forEach_device_good gen config session (d :: ds) r Hds Ht).
Qed.

(** A device whose nid is null or undefined makes [discoverDevices] throw
    the TypeError of calling toString on it; the devices before it have
    been built, and none after it is. *)
Theorem discoverDevices_stops_at_missing_nid (gen : string -> string) (config : obj)
    (session : Creds) (ds1 ds2 : list jsval) (d : jsval) (r : Launch.Registry) :
  Forall (fun d => d <> JUndef /\ d <> JNull /\ prop d "nid" <> JUndef /\
                   prop d "nid" <> JNull /\ js_to_string (prop d "nid") <> EmptyString) ds1 ->
  js_truthy (c_token session) = true ->
  d <> JUndef -> d <> JNull -> prop d "nid" = JUndef \/ prop d "nid" = JNull ->
  let res := Launch.discoverDevices gen config (JArr (ds1 ++ d :: ds2)) session r in
  snd res = Some (type_error_msg (prop d "nid") "toString") /\
  map fst (Launch.built (fst res)) =
    (map fst (Launch.built r) ++ map (fun d => gen (js_to_string (prop d "nid"))) ds1)%list.
Proof.
  intros Hds Ht H1 H2 H3. cbn zeta.
  assert (Hd : Launch.device_config config session d =
               inr (type_error_msg (prop d "nid") "toString")).
  { unfold Launch.device_config.
    destruct d; try contradiction; destruct H3 as [E|E]; rewrite E; reflexivity. }
  destruct (ds1 ++ d :: ds2)%list as [|d0 ds0] eqn:Eds;
    [destruct ds1; discriminate|].
  unfold Launch.discoverDevices. rewrite length_gt_zero, <- Eds, forEach_device_app.
  destruct (forEach_device_good gen config session ds1 r Hds Ht) as (Hn & Hm & _).
  destruct (Launch.forEach_device gen config session ds1 r) as [r1 e1].
  simpl in Hn. subst e1. simpl. rewrite Hd. split; [reflexivity|exact Hm].
Qed.

(** [addAccessory] ignores a configuration whose token or nid is falsy.
    A device whose UUID is not among the cached accessories is registered
    under its name; the new accessory is not added to the cached list, so
    a second call with the same configuration registers it again. *)
Theorem addAccessory_new_device (gen : string -> string) (dc : obj) (r : Launch.Registry) :
  let c := JObj dc in
  let u := gen (js_to_string (prop c "nid")) in
  (js_truthy (prop c "token") = false \/ js_truthy (prop c "nid") = false ->
   Launch.addAccessory gen dc r = r) /\
  (js_truthy (prop c "token") = true -> js_truthy (prop c "nid") = true ->
   find (fun e => String.eqb (fst e) u) (Launch.cached r) = None ->
   let r1 := Launch.addAccessory gen dc r in
   Launch.registered r1 = (Launch.registered r ++ [(u, prop c "name")])%list /\
   Launch.cached r1 = Launch.cached r /\
   Launch.updated r1 = Launch.updated r /\
   Launch.registered (Launch.addAccessory gen dc r1) =
     (Launch.registered r ++ [(u, prop c "name"); (u, prop c "name")])%list).
Proof.
  cbn zeta. split.
  - intros H. unfold Launch.addAccessory.
    destruct H as [H|H]; rewrite H; [reflexivity|]. rewrite Bool.orb_true_r. reflexivity.
  - intros Ht Hn Hf.
    assert (E : forall r0, Launch.cached r0 = Launch.cached r ->
      Launch.addAccessory gen dc r0 =
      Launch.mkRegistry (Launch.cached r0)
        (Launch.registered r0 ++ [(gen (js_to_string (prop (JObj dc) "nid")),
                                   prop (JObj dc) "name")])%list
        (Launch.updated r0)
        (Launch.built r0 ++ [(gen (js_to_string (prop (JObj dc) "nid")), dc)])%list).
    { intros r0 Hc. unfold Launch.addAccessory. rewrite Ht, Hn. simpl.
      rewrite Hc, Hf. reflexivity. }
    cbn zeta. rewrite (E r eq_refl). simpl. split; [reflexivity|]. split; [reflexivity|].
    split; [reflexivity|].
    rewrite E by reflexivity. simpl. rewrite <- app_assoc. reflexivity.
Qed.

Lemma find_obj_set (u : string) (v : jsval) (l : list (string * jsval)) (u' : string)
    (dn : jsval) :
  find (fun e => String.eqb (fst e) u) l = Some (u', dn) ->
  find (fun e => String.eqb (fst e) u) (obj_set l u v) = Some (u', v).
Proof.
  induction l as [|[k x] l IH]; simpl; [discriminate|].
  rewrite String.eqb_sym. destruct (String.eqb u k) eqn:E.
  - intros H. injection H as <- <-. simpl. rewrite String.eqb_sym, E. reflexivity.
  - intros H. simpl. rewrite String.eqb_sym, E. exact (IH H).
Qed.

(** A device whose UUID is among the cached accessories is never
    registered again; an accessory is built for it.  When its cached name
    differs (by [!==]) from the configured name, the cached accessory is
    renamed and passed to [updatePlatformAccessories]; a second call with
    the same (string) name then updates nothing. *)
Theorem addAccessory_cached_device (gen : string -> string) (dc : obj)
    (r : Launch.Registry) (u' : string) (dn : jsval) :
  let c := JObj dc in
  let u := gen (js_to_string (prop c "nid")) in
  let name := prop c "name" in
  js_truthy (prop c "token") = true -> js_truthy (prop c "nid") = true ->
  find (fun e => String.eqb (fst e) u) (Launch.cached r) = Some (u', dn) ->
  let r1 := Launch.addAccessory gen dc r in
  Launch.registered r1 = Launch.registered r /\
  Launch.built r1 = (Launch.built r ++ [(u, dc)])%list /\
  (js_strict_eq dn name = true ->
     Launch.cached r1 = Launch.cached r /\ Launch.updated r1 = Launch.updated r) /\
  (js_strict_eq dn name = false ->
     Launch.updated r1 = (Launch.updated r ++ [(u, name)])%list /\
     find (fun e => String.eqb (fst e) u) (Launch.cached r1) = Some (u', name) /\
     (js_strict_eq name name = true ->
        let r2 := Launch.addAccessory gen dc r1 in
        Launch.updated r2 = Launch.updated r1 /\
        Launch.registered r2 = Launch.registered r)).
Proof.
  cbn zeta. intros Ht Hn Hf.
  assert (E : forall r0 dn0,
    find (fun e => String.eqb (fst e) (gen (js_to_string (prop (JObj dc) "nid"))))
      (Launch.cached r0) = Some (u', dn0) ->
    Launch.addAccessory gen dc r0 =
    if negb (js_strict_eq dn0 (prop (JObj dc) "name")) then
      Launch.mkRegistry
        (obj_set (Launch.cached r0) (gen (js_to_string (prop (JObj dc) "nid")))
           (prop (JObj dc) "name"))
        (Launch.registered r0)
        (Launch.updated r0 ++ [(gen (js_to_string (prop (JObj dc) "nid")),
                                prop (JObj dc) "name")])%list
        (Launch.built r0 ++ [(gen (js_to_string (prop (JObj dc) "nid")), dc)])%list
    else
      Launch.mkRegistry (Launch.cached r0) (Launch.registered r0) (Launch.updated r0)
        (Launch.built r0 ++ [(gen (js_to_string (prop (JObj dc) "nid")), dc)])%list).
  { intros r0 dn0 Hf0. unfold Launch.addAccessory. rewrite Ht, Hn. simpl.
    rewrite Hf0. reflexivity. }
  rewrite (E r dn Hf).
  destruct (js_strict_eq dn (prop (JObj dc) "name")) eqn:Es; simpl.
  - split; [reflexivity|]. split; [reflexivity|].
    split; [intros _; split; reflexivity|intros; discriminate].
  - split; [reflexivity|]. split; [reflexivity|].
    split; [intros; discriminate|]. intros _.
    split; [reflexivity|]. split; [exact (find_obj_set _ _ _ _ _ Hf)|].
    intros Hnn. rewrite (E _ (prop (JObj dc) "name")) by exact (find_obj_set _ _ _ _ _ Hf).
    rewrite Hnn. simpl.
    split; reflexivity.
Qed.

Lemma discoverDevices_builds_all_witness :
  map fst (Launch.built (fst (Launch.discoverDevices Examples.gen Examples.platform_config
             (JArr [Examples.device1; Examples.device2]) Examples.session1 Examples.reg0)))
  = ["uuid-5566"; "uuid-7788"].
Proof.
  destruct (discoverDevices_builds_all Examples.gen Examples.platform_config Examples.session1
              [Examples.device1; Examples.device2] Examples.reg0) as [_ H].
  destruct (H ltac:(discriminate)
              ltac:(repeat constructor; discriminate) eq_refl) as (_ & Hm & _).
  exact Hm.
Defined.

Lemma discoverDevices_stops_at_missing_nid_witness :
  let res := Launch.discoverDevices Examples.gen Examples.platform_config
               (JArr [Examples.device1; JObj [("nickname", JStr "Bedroom")];
                      Examples.device2]) Examples.session1 Examples.reg0 in
  snd res = Some "Cannot read properties of undefined (reading 'toString')" /\
  map fst (Launch.built (fst res)) = ["uuid-5566"].
Proof.
  exact (discoverDevices_stops_at_missing_nid Examples.gen Examples.platform_config
           Examples.session1 [Examples.device1] [Examples.device2]
           (JObj [("nickname", JStr "Bedroom")]) Examples.reg0
           ltac:(repeat constructor; discriminate) eq_refl
           ltac:(discriminate) ltac:(discriminate) (or_introl eq_refl)).
Defined.

Lemma addAccessory_new_device_witness :
  let dc := [("name", JStr "Living room"); ("nid", JStr "5566"); ("token", JStr "tok")] in
  Launch.registered (Launch.addAccessory Examples.gen dc
                       (Launch.addAccessory Examples.gen dc Examples.reg0)) =
  [("uuid-5566", JStr "Living room"); ("uuid-5566", JStr "Living room")].
Proof.
  destruct (addAccessory_new_device Examples.gen
              [("name", JStr "Living room"); ("nid", JStr "5566"); ("token", JStr "tok")]
              Examples.reg0) as [_ H].
  exact (proj2 (proj2 (proj2 (H eq_refl eq_refl eq_refl)))).
Defined.

Lemma addAccessory_cached_device_witness :
  let dc := [("name", JStr "Living room"); ("nid", JStr "5566"); ("token", JStr "tok")] in
  let r := Launch.configureAccessory "uuid-5566" (JStr "Diffuser") Examples.reg0 in
  let r1 := Launch.addAccessory Examples.gen dc r in
  Launch.updated r1 = [("uuid-5566", JStr "Living room")] /\
  Launch.registered (Launch.addAccessory Examples.gen dc r1) = [].
Proof.
  destruct (addAccessory_cached_device Examples.gen
              [("name", JStr "Living room"); ("nid", JStr "5566"); ("token", JStr "tok")]
              (Launch.configureAccessory "uuid-5566" (JStr "Diffuser") Examples.reg0)
              "uuid-5566" (JStr "Diffuser") eq_refl eq_refl eq_refl)
    as (_ & _ & _ & H).
  destruct (H eq_refl) as (Hu & _ & H2).
  split; [exact Hu|]. exact (proj2 (H2 eq_refl)).
Defined.
